(** * skypipe: the cloud satellite manager (skypipe/cloud.py)

    A shallow embedding of [discover_satellite], [launch_satellite] and
    their helpers.  The Python functions talk to the outside world through
    the dotcloud CLI object [cli], the [socket] module and the skypipe
    client; here every such call is a node of a program tree, and the
    world (the [cli] object and everything behind it) is an oracle that
    answers each call from the calls made so far.  Running a program
    against a world yields the trace of calls with their answers and the
    final outcome: a returned value or a raised exception. *)

From Stdlib Require Import ZArith Ascii String.
From stdpp Require Import base option list strings gmap.

(** ** Python values, exceptions and results *)

(** The exception classes the module distinguishes.  [RESTAPIError] is the
    dotcloud client's error (it carries the HTTP status in [code], and its
    [str] is the description); [OtherError] stands for every class that no
    [except] clause of the module names, such as [socket.gaierror]. *)
Inductive exn : Type :=
| RESTAPIError (code : Z) (desc : string)
| KeyError (key : string)
| KeyboardInterrupt
| RuntimeError
| SystemExit (status : Z)
| OtherError (name : string).

Inductive result (A : Type) : Type :=
| Return (a : A)
| Raise (e : exn).
Arguments Return {A} a.
Arguments Raise {A} e.

(** What [discover_satellite] and [launch_satellite] can return: an
    endpoint string, [None], or (line 175) an integer exit code. *)
Inductive value : Type :=
| VNone
| VStr (s : string)
| VInt (z : Z).

(** Values that occur in the JSON bodies the module posts. *)
Inductive pyval : Type :=
| PNone
| PBool (b : bool)
| PStr (s : string).

(** A response of the REST client: [.item], [.items] and [.trace_id]. *)
Record response : Type := Response {
  item : gmap string string;
  items : list (gmap string string);
  trace_id : string
}.

(** [threading.Event] objects and file-like objects are named by numbers. *)
Definition handle := nat.
Definition stream := nat.

(** ** Calls to the outside *)

(** Calls that may raise: the REST client ([cli.user]), name resolution,
    and the dotcloud CLI methods that push code and follow logs. *)
Inductive rop : Type → Type :=
| UserGet (url : string) : rop response
| UserDelete (url : string) : rop response
| UserPost (url : string) (body : list (string * pyval)) : rop response
| GetHostByName (name : string) : rop string
| SelectEndpoint (endpoints : list (gmap string string)) (protocol : string) : rop string
| PushWithRsync (path : string) (endpoint : string) : rop unit
| StreamDeployLogs (app : string) (deploy_id : string) (deploy_trace_id : string)
    (follow : bool) : rop Z.

(** Calls that always come back with a value: attribute reads, console
    output, the interpreter's own objects.  [Sleep] takes milliseconds
    ([time.sleep(0.1)] is [Sleep 100]). *)
Inductive top : Type → Type :=
| ConfigLoaded : top bool
| CliInfo (msg : string) : top unit
| CliError (msg : string) : top unit
| CliDie (msg : option string) : top unit
| FmtDeployLogsCommand (deploy_id : string) : top string
| CheckSkypipeEndpoint (endpoint : string) (timeout : Z) : top bool
| SysStdout : top stream
| SetSysStdout (s : stream) : top unit
| NewStringIO : top stream
| NewEvent : top handle
| EventSet (h : handle) : top unit
| Sleep (ms : Z) : top unit
| IoWrite (io : stream) (text : string) : top unit
| ThreadStart (finish : handle) (io : stream) : top unit.

(** A call without its answer, and a call with its answer. *)
Inductive call : Type :=
| AskR {X} (c : rop X)
| AskT {X} (c : top X).

Inductive event : Type :=
| EvR {X} (c : rop X) (r : result X)
| EvT {X} (c : top X) (x : X).

Definition call_of (e : event) : call :=
  match e with
  | EvR c _ => AskR c
  | EvT c _ => AskT c
  end.

(** ** Programs *)

Inductive prog (A : Type) : Type :=
| Done (r : result A)
| CallR {X} (c : rop X) (k : result X → prog A)
| CallT {X} (c : top X) (k : X → prog A).
Arguments Done {A} r.
Arguments CallR {A X} c k.
Arguments CallT {A X} c k.

Fixpoint prog_bind {A B} (f : A → prog B) (p : prog A) : prog B :=
  match p with
  | Done (Return a) => f a
  | Done (Raise e) => Done (Raise e)
  | CallR c k => CallR c (λ r, prog_bind f (k r))
  | CallT c k => CallT c (λ x, prog_bind f (k x))
  end.

#[export] Instance prog_ret : MRet prog := λ A a, Done (Return a).
#[export] Instance prog_mbind : MBind prog := @prog_bind.

Definition raise {A} (e : exn) : prog A := Done (Raise e).
Definition call_r {X} (c : rop X) : prog X := CallR c Done.
Definition tell {X} (c : top X) : prog X := CallT c (λ x, Done (Return x)).

(** [try: body except ...: handler].  [handler e] is [Some h] when a
    clause matches [e] and [None] when [e] passes through. *)
Fixpoint try_except {A} (body : prog A) (handler : exn → option (prog A)) : prog A :=
  match body with
  | Done (Return a) => Done (Return a)
  | Done (Raise e) =>
      match handler e with
      | Some h => h
      | None => Done (Raise e)
      end
  | CallR c k => CallR c (λ r, try_except (k r) handler)
  | CallT c k => CallT c (λ x, try_except (k x) handler)
  end.

(** [try: body finally: fin].  The [finally] suite runs on every exit of
    the body, then the body's return or exception goes on, unless the
    suite itself raised. *)
Fixpoint try_finally {A} (body : prog A) (fin : prog unit) : prog A :=
  match body with
  | Done r => fin ;; Done r
  | CallR c k => CallR c (λ r, try_finally (k r) fin)
  | CallT c k => CallT c (λ x, try_finally (k x) fin)
  end.

(** [d[key]] on a dict. *)
Definition getitem (d : gmap string string) (key : string) : prog string :=
  match d !! key with
  | Some v => mret v
  | None => raise (KeyError key)
  end.

(** [cli.die(message)] of the dotcloud CLI prints the message, if any, and
    calls [sys.exit(1)]: it never returns. *)
Definition die {A} (msg : option string) : prog A :=
  CallT (CliDie msg) (λ _, Done (Raise (SystemExit 1))).

(** Modelled from the spec: [client.check_skypipe_endpoint] of
    skypipe/client.py, which is not among the sources.  By section 4.1 it
    probes the endpoint within the timeout and returns a boolean; it
    returns false, and does not raise, on refusal, timeout or protocol
    mismatch. *)
Definition check_skypipe_endpoint (endpoint : string) (timeout : Z) : prog bool :=
  tell (CheckSkypipeEndpoint endpoint timeout).

(** ** The world and the run of a program *)

Record world : Type := World {
  answer : ∀ X, list call → rop X → result X;
  reply : ∀ X, list call → top X → X
}.
Arguments answer w {X} h c.
Arguments reply w {X} h c.

(** [run w h p] runs [p] in world [w] after the calls [h] (latest first). *)
Fixpoint run {A} (w : world) (h : list call) (p : prog A) : list event * result A :=
  match p with
  | Done r => ([], r)
  | CallR c k =>
      let r := answer w h c in
      let '(t, o) := run w (AskR c :: h) (k r) in (EvR c r :: t, o)
  | CallT c k =>
      let x := reply w h c in
      let '(t, o) := run w (AskT c :: h) (k x) in (EvT c x :: t, o)
  end.

Definition trace {A} (w : world) (h : list call) (p : prog A) : list event :=
  fst (run w h p).
Definition outcome {A} (w : world) (h : list call) (p : prog A) : result A :=
  snd (run w h p).

(** ** The module *)

Definition dquote : string := String "034"%char EmptyString.

Definition APPNAME : string := "skypipe0".

Section Cloud.

(** The directory of the module's file, [os.path.abspath(os.path.dirname(__file__))]. *)
Variable module_dir : string.

Definition satellite_path : string := module_dir +:+ "/satellite".

(** Lines 37-53.  The thread that prints the dots is started and left to
    itself; [finish] and [io] are [None] when the caller leaves them out. *)
Definition wait_for (text : string) (finish : option handle) (io : option stream)
  : prog handle :=
  match finish with
  | Some f => tell (EventSet f) ;; tell (Sleep 100)
  | None => mret ()
  end ;;
  io ← match io with
       | Some s => mret s
       | None => tell SysStdout
       end;
  finish ← tell NewEvent;
  tell (IoWrite io text) ;;
  tell (ThreadStart finish io) ;;
  mret finish.

Definition environment_url : string := "/applications/" +:+ APPNAME +:+ "/environment".

(** Lines 56-62. *)
Definition lookup_endpoint : prog string :=
  let url := environment_url in
  got ← call_r (UserGet url);
  let environ := item got in
  port ← getitem environ "DOTCLOUD_SATELLITE_ZMQ_PORT";
  name ← getitem environ "DOTCLOUD_SATELLITE_ZMQ_HOST";
  host ← call_r (GetHostByName name);
  mret ("tcp://" +:+ host +:+ ":" +:+ port).

(** Lines 118-123. *)
Definition destroy_satellite : prog unit :=
  let url := "/applications/" +:+ APPNAME in
  try_except (call_r (UserDelete url) ;; mret ())
    (λ e, match e with
          | RESTAPIError _ _ => Some (mret ())
          | _ => None
          end).

Definition create_body : list (string * pyval) :=
  [("name", PStr APPNAME); ("flavor", PStr "sandbox")].

Definition already_exists_message : string :=
  "Application " +:+ dquote +:+ APPNAME +:+ dquote +:+ " already exists.".

Definition interrupted_message : string :=
  "You've closed your log stream with Ctrl-C, " +:+
  "but the deployment is still running in the background.".

Definition newline : string := String "010"%char EmptyString.

Definition support_message (deploy_trace_id : string) : string :=
  "If you aborted because of an error " +:+
  "(e.g. the deployment got stuck), please e-mail" +:+ newline +:+
  "support@dotcloud.com and mention this trace ID: " +:+ deploy_trace_id.

Definition resume_message (command : string) : string :=
  "If you want to continue following your deployment, " +:+
  "try:" +:+ newline +:+ command.

(** Lines 125-204.  The [try] around the log stream yields [Some v] when
    its body executes [return v] (line 175) and [None] when control falls
    out of the statement. *)
Definition launch_satellite : prog value :=
  tell (CliInfo "Launching skypipe satellite:") ;;
  finish ← wait_for "    Pushing to dotCloud" None None;
  destroy_satellite ;;
  let url := "/applications" in
  try_except (call_r (UserPost url create_body) ;; mret ())
    (λ e, match e with
          | RESTAPIError code desc =>
              Some (if bool_decide (code = 409%Z)
                    then die (Some already_exists_message)
                    else die (Some ("Creating application " +:+ dquote +:+ APPNAME +:+
                                    dquote +:+ " failed: " +:+ desc)))
          | _ => None
          end) ;;
  let protocol := "rsync" in
  let url := "/applications/" +:+ APPNAME +:+ "/push-endpoints" +:+ EmptyString in
  got ← call_r (UserGet url);
  endpoint ← call_r (SelectEndpoint (items got) protocol);
  call_r (PushWithRsync satellite_path endpoint) ;;
  let revision := PNone in
  let clean := PBool false in
  let url := "/applications/" +:+ APPNAME +:+ "/deployments" in
  resp ← call_r (UserPost url [("revision", revision); ("clean", clean)]);
  let deploy_trace_id := trace_id resp in
  deploy_id ← getitem (item resp) "deploy_id";
  original_stdout ← tell SysStdout;
  finish ← wait_for "    Waiting for deployment" (Some finish) (Some original_stdout);
  returned ← try_finally
    (try_except
       (buffer ← tell NewStringIO;
        tell (SetSysStdout buffer) ;;
        res ← call_r (StreamDeployLogs APPNAME deploy_id deploy_trace_id true);
        if bool_decide (res ≠ 0%Z) then mret (Some (VInt res)) else mret None)
       (λ e, match e with
             | KeyboardInterrupt =>
                 Some (tell (CliError interrupted_message) ;;
                       tell (CliError (support_message deploy_trace_id)) ;;
                       command ← tell (FmtDeployLogsCommand deploy_id);
                       tell (CliError (resume_message command)) ;;
                       die None)
             | RuntimeError => Some (mret None)
             | _ => None
             end))
    (tell (SetSysStdout original_stdout));
  match returned with
  | Some v => mret v
  | None =>
      finish ← wait_for "    Satellite coming online" (Some finish) None;
      endpoint ← lookup_endpoint;
      ok ← check_skypipe_endpoint endpoint 120;
      tell (EventSet finish) ;;
      tell (Sleep 100) ;;
      if ok : bool then mret (VStr endpoint)
      else die (Some "Satellite failed to come online")
  end.

(** Lines 94-116.  The call [launch_satellite(cli)] of line 114 stands
    inside the [try] statement, the one of line 116 inside its [except]
    clause. *)
Definition discover_satellite (deploy : bool) (timeout : Z) : prog value :=
  loaded ← tell ConfigLoaded;
  (if negb loaded
   then die (Some "Please setup skypipe by running `skypipe --setup`")
   else mret ()) ;;
  try_except
    (endpoint ← lookup_endpoint;
     ok ← check_skypipe_endpoint endpoint timeout;
     if ok : bool then mret (VStr endpoint)
     else if deploy then launch_satellite else mret VNone)
    (λ e, match e with
          | RESTAPIError _ _ | KeyError _ =>
              Some (if deploy then launch_satellite else mret VNone)
          | _ => None
          end).

(** The signature's defaults, [deploy=True] and [timeout=5]: the call
    [discover_satellite(cli)] of [setup] (line 90). *)
Definition default_deploy : bool := true.
Definition default_timeout : Z := 5.
Definition discover_satellite_default : prog value :=
  discover_satellite default_deploy default_timeout.

End Cloud.

(** ** Reading traces *)

Definition is_destroy (e : event) : bool :=
  match e with
  | EvR (UserDelete _) _ => true
  | _ => false
  end.

(** A destroy call that is over: it returned, or raised the
    [RESTAPIError] that [destroy_satellite] absorbs. *)
Definition is_completed_destroy (e : event) : bool :=
  match e with
  | EvR (UserDelete _) (Return _) => true
  | EvR (UserDelete _) (Raise (RESTAPIError _ _)) => true
  | _ => false
  end.

Definition is_create (e : event) : bool :=
  match e with
  | EvR (UserPost url _) _ => bool_decide (url = "/applications")
  | _ => false
  end.

Definition is_push (e : event) : bool :=
  match e with
  | EvR (PushWithRsync _ _) _ => true
  | _ => false
  end.

Definition is_deploy_trigger (e : event) : bool :=
  match e with
  | EvR (UserPost url _) _ => bool_decide (url ≠ "/applications")
  | _ => false
  end.

(** The calls that change something on the platform. *)
Definition is_mutating (e : event) : bool :=
  match e with
  | EvR (UserDelete _) _ | EvR (UserPost _ _) _ | EvR (PushWithRsync _ _) _ => true
  | _ => false
  end.

Definition is_stream (e : event) : bool :=
  match e with
  | EvR (StreamDeployLogs _ _ _ _) _ => true
  | _ => false
  end.

(** The exit code of a log stream that returned. *)
Definition stream_exit (e : event) : option Z :=
  match e with
  | EvR c r =>
      match c in rop X return result X → option Z with
      | StreamDeployLogs _ _ _ _ => λ r, match r with Return z => Some z | Raise _ => None end
      | _ => λ _, None
      end r
  | EvT _ _ => None
  end.

Definition stream_raised (e : event) : option exn :=
  match e with
  | EvR (StreamDeployLogs _ _ _ _) (Raise x) => Some x
  | _ => None
  end.

Definition is_lookup (e : event) : bool :=
  match e with
  | EvR (UserGet url) _ => bool_decide (url = environment_url)
  | _ => false
  end.

(** The endpoint, the timeout and the verdict of a probe. *)
Definition probe_of (e : event) : option (string * Z * bool) :=
  match e with
  | EvT c x =>
      match c in top X return X → option (string * Z * bool) with
      | CheckSkypipeEndpoint endpoint timeout => λ ok, Some (endpoint, timeout, ok)
      | _ => λ _, None
      end x
  | EvR _ _ => None
  end.

Definition is_probe (e : event) : bool := bool_decide (is_Some (probe_of e)).

Definition die_message (e : event) : option (option string) :=
  match e with
  | EvT (CliDie msg) _ => Some msg
  | _ => None
  end.

Definition is_launch_start (e : event) : bool :=
  match e with
  | EvT (CliInfo msg) _ => bool_decide (msg = "Launching skypipe satellite:")
  | _ => false
  end.

(** The error of a create call that was refused. *)
Definition create_error (e : event) : option exn :=
  match e with
  | EvR (UserPost url _) (Raise x) =>
      if bool_decide (url = "/applications") then Some x else None
  | _ => None
  end.

(** [every_point Φ before t]: [Φ] holds at every position of [t], of the
    events before it (latest first), the event there and the events after. *)
Fixpoint every_point (Φ : list event → event → list event → Prop)
    (before : list event) (t : list event) : Prop :=
  match t with
  | [] => True
  | e :: t' => Φ before e t' ∧ every_point Φ (e :: before) t'
  end.

(** [at_each sel Ψ]: wherever [sel] picks something out of the event, [Ψ]
    holds of it, of the events before and of the events after. *)
Definition at_each {X} (sel : event → option X)
    (Ψ : X → list event → list event → Prop)
    (before : list event) (e : event) (post : list event) : Prop :=
  ∀ x, sel e = Some x → Ψ x before post.

(** The positions of [t] that [sel] picks, each with what it picked, the
    events before and the events after. *)
Fixpoint hits {X} (sel : event → option X) (before t : list event)
  : list (X * list event * list event) :=
  match t with
  | [] => []
  | e :: t' =>
      match sel e with
      | Some x => (x, before, t') :: hits sel (e :: before) t'
      | None => hits sel (e :: before) t'
      end
  end.

Definition when (P : event → bool) (e : event) : option unit :=
  if P e then Some () else None.

Definition is_remote (e : event) : bool :=
  match e with
  | EvR _ _ => true
  | EvT _ _ => false
  end.

Definition count (P : event → bool) (t : list event) : nat :=
  length (List.filter P t).

(** ** A calculus of all runs *)

(** [wp p Q]: whatever the world answers, the trace and the outcome of [p]
    satisfy [Q]. *)
Fixpoint wp {A} (p : prog A) (Q : list event → result A → Prop) : Prop :=
  match p with
  | Done r => Q [] r
  | CallR c k => ∀ r, wp (k r) (λ t o, Q (EvR c r :: t) o)
  | CallT c k => ∀ x, wp (k x) (λ t o, Q (EvT c x :: t) o)
  end.

(** ** Worlds to run against *)

(** A world given by a few tables: [s_get n url] answers the GET of [url]
    that comes after [n] earlier GETs, the other entries answer every call
    of their kind. *)
Record script : Type := Script {
  s_loaded : bool;
  s_get : nat → string → result response;
  s_delete : result response;
  s_post : string → result response;
  s_resolve : string → result string;
  s_select : result string;
  s_push : result unit;
  s_stream : result Z;
  s_probe : string → Z → bool
}.

Definition is_get_call (c : call) : bool :=
  match c with
  | AskR (UserGet _) => true
  | _ => false
  end.

Definition scripted (s : script) : world := {|
  answer X h c :=
    match c in rop X return result X with
    | UserGet url => s_get s (length (filter (λ c, is_get_call c = true) h)) url
    | UserDelete _ => s_delete s
    | UserPost url _ => s_post s url
    | GetHostByName name => s_resolve s name
    | SelectEndpoint _ _ => s_select s
    | PushWithRsync _ _ => s_push s
    | StreamDeployLogs _ _ _ _ => s_stream s
    end;
  reply X h c :=
    match c in top X return X with
    | ConfigLoaded => s_loaded s
    | CliInfo _ | CliError _ | CliDie _ | SetSysStdout _ | EventSet _ | Sleep _
    | IoWrite _ _ | ThreadStart _ _ => ()
    | FmtDeployLogsCommand deploy_id => "dotcloud dlogs " +:+ deploy_id
    | CheckSkypipeEndpoint endpoint timeout => s_probe s endpoint timeout
    | SysStdout => 1%nat
    | NewStringIO => 2%nat
    | NewEvent => length h
    end
|}.

Definition env_response (host port : string) : response :=
  Response {[ "DOTCLOUD_SATELLITE_ZMQ_HOST" := host; "DOTCLOUD_SATELLITE_ZMQ_PORT" := port ]}
    [] EmptyString.

Definition deploy_response (deploy_id trace : string) : response :=
  Response {[ "deploy_id" := deploy_id ]} [] trace.

Definition plain_response : response := Response ∅ [] EmptyString.

(** The platform where everything works: the satellite's environment is
    recorded, every request succeeds, the log stream ends with [0]. *)
Definition healthy (probe : string → Z → bool) : script := {|
  s_loaded := true;
  s_get n url := Return (env_response "10.0.0.5" "9000");
  s_delete := Return plain_response;
  s_post url := Return (deploy_response "d1" "trace-1");
  s_resolve name := Return name;
  s_select := Return "rsync://push.example/skypipe0";
  s_push := Return ();
  s_stream := Return 0%Z;
  s_probe := probe
|}.

Definition script_with_post (post : string → result response) (s : script) : script :=
  Script (s_loaded s) (s_get s) (s_delete s) post (s_resolve s) (s_select s)
    (s_push s) (s_stream s) (s_probe s).

Definition script_with_stream (r : result Z) (s : script) : script :=
  Script (s_loaded s) (s_get s) (s_delete s) (s_post s) (s_resolve s) (s_select s)
    (s_push s) r (s_probe s).

Definition script_with_get (get : nat → string → result response) (s : script) : script :=
  Script (s_loaded s) get (s_delete s) (s_post s) (s_resolve s) (s_select s)
    (s_push s) (s_stream s) (s_probe s).

(** The platform that refuses to create the application: it is still there. *)
Definition still_there : script :=
  script_with_post
    (λ url, if bool_decide (url = "/applications")
            then Raise (RESTAPIError 409 "Conflict")
            else Return (deploy_response "d1" "trace-1"))
    (healthy (λ _ _, false)).

(** The platform whose deployment fails: the log stream ends with [1]. *)
Definition failing_deploy (trace : string) : script :=
  script_with_post (λ url, Return (deploy_response "d1" trace))
    (script_with_stream (Return 1%Z) (healthy (λ _ _, false))).

(** The platform whose satellite never answers. *)
Definition never_online : script := healthy (λ _ _, false).

(** ** What the claims say of a run *)

(** The event just before is a destroy call that is over. *)
Definition destroyed_just_before (_ : unit) (before post : list event) : Prop :=
  ∃ d rest, before = d :: rest ∧ is_completed_destroy d = true.

(** After a create refused with 409: a single [die] with the message of
    line 144, and [SystemExit]. *)
Definition conflict_is_fatal (o : result value) (x : exn) (before post : list event)
  : Prop :=
  ∀ desc, x = RESTAPIError 409 desc →
  o = Raise (SystemExit 1) ∧
  ∃ d, post = [d] ∧ die_message d = Some (Some already_exists_message).

(** After a probe that failed: it had the long timeout, what follows are
    local calls that end in the [die] of line 204, and [SystemExit]. *)
Definition offline_is_fatal (o : result value) (x : string * Z * bool)
    (before post : list event) : Prop :=
  x.2 = false →
  x.1.2 = 120%Z ∧
  o = Raise (SystemExit 1) ∧
  Forall (λ e, is_remote e = false ∧ is_launch_start e = false) post ∧
  ∃ d, last post = Some d ∧
       die_message d = Some (Some "Satellite failed to come online").

Definition is_restore_stdout (e : event) : bool :=
  match e with
  | EvT (SetSysStdout _) _ => true
  | _ => false
  end.

(** After a log stream that ended with a nonzero code: [sys.stdout] is put
    back, nothing else happens, and the code is the return value. *)
Definition exit_code_returned (o : result value) (z : Z) (before post : list event)
  : Prop :=
  z ≠ 0%Z →
  o = Return (VInt z) ∧ ∃ d, post = [d] ∧ is_restore_stdout d = true.

(** [absorbs p]: at every log-stream call of [p], what [p] does after the
    call raised [RuntimeError] is what it does after the call returned [0]. *)
Fixpoint absorbs {A} (p : prog A) : Prop :=
  match p with
  | Done _ => True
  | CallR c k =>
      (∀ r, absorbs (k r)) ∧
      match c in rop X return (result X → prog A) → Prop with
      | StreamDeployLogs _ _ _ _ => λ k, k (Raise RuntimeError) = k (Return 0%Z)
      | _ => λ _, True
      end k
  | CallT c k => ∀ x, absorbs (k x)
  end.

(** Two answers to one call: the same answer, or [RuntimeError] on one
    side where the log stream returned [0] on the other. *)
Definition swapped {X} (c : rop X) (raised returned : result X) : Prop :=
  raised = returned ∨
  match c in rop X return result X → result X → Prop with
  | StreamDeployLogs _ _ _ _ =>
      λ raised returned, raised = Raise RuntimeError ∧ returned = Return 0%Z
  | _ => λ _ _, False
  end raised returned.

Definition swapped_event (raised returned : event) : Prop :=
  raised = returned ∨
  (stream_raised raised = Some RuntimeError ∧ stream_exit returned = Some 0%Z ∧
   call_of raised = call_of returned).

(** The platform whose log stream raises [RuntimeError]. *)
Definition stream_breaks : script :=
  script_with_stream (Raise RuntimeError) (healthy (λ _ _, true)).

(** After a log stream that raised [RuntimeError]: the next remote call
    is the lookup of the environment. *)
Definition lookup_comes_next (x : exn) (before post : list event) : Prop :=
  x = RuntimeError →
  ∃ e, List.find is_remote post = Some e ∧ is_lookup e = true.

(** The timeout of every probe, if the event is one. *)
Definition probe_timeout_is (timeout : Z) (e : event) : Prop :=
  ∀ x, probe_of e = Some x → x.1.2 = timeout.

(** The events of [discover_satellite] itself, before any launch. *)
Definition is_prelude (timeout : Z) (e : event) : bool :=
  match e with
  | EvT ConfigLoaded _ => true
  | EvT (CliDie _) _ => true
  | EvT (CheckSkypipeEndpoint _ t) _ => bool_decide (t = timeout)
  | EvR (UserGet url) _ => bool_decide (url = environment_url)
  | EvR (GetHostByName _) _ => true
  | _ => false
  end.

(** The exceptions the [except] clause of line 115 names. *)
Definition caught (e : exn) : bool :=
  match e with
  | RESTAPIError _ _ | KeyError _ => true
  | _ => false
  end.

(** The shape of a run of [discover_satellite], given what is known ([L])
    of the runs of [launch_satellite]: the events of its own, then no
    launch, or one launch whose outcome is the outcome, or a launch that
    raised what line 115 catches and a second launch. *)
Definition discover_runs (L : list event → result value → Prop) (timeout : Z)
    (t : list event) (o : result value) : Prop :=
  ∃ pre, Forall (λ e, is_prelude timeout e = true) pre ∧
    ((t = pre ∧ ∀ e, o = Raise e → caught e = false) ∨
     (∃ t1, L t1 o ∧ t = pre ++ t1) ∨
     (∃ t1 e t2, L t1 (Raise e) ∧ caught e = true ∧ L t2 o ∧ t = pre ++ t1 ++ t2)).

(** The error of a lookup of the environment that raised. *)
Definition lookup_error (e : event) : option exn :=
  match e with
  | EvR (UserGet url) (Raise x) =>
      if bool_decide (url = environment_url) then Some x else None
  | _ => None
  end.

(** The response of a lookup of the environment that returned. *)
Definition lookup_answer (e : event) : option response :=
  match e with
  | EvR c r =>
      match c in rop X return result X → option response with
      | UserGet url => λ r,
          match r with
          | Return resp => if bool_decide (url = environment_url) then Some resp else None
          | Raise _ => None
          end
      | _ => λ _, None
      end r
  | EvT _ _ => None
  end.

(** A response that lacks the host or the port. *)
Definition incomplete (resp : response) : Prop :=
  item resp !! "DOTCLOUD_SATELLITE_ZMQ_HOST" = None ∨
  item resp !! "DOTCLOUD_SATELLITE_ZMQ_PORT" = None.

(** A lookup that gives no endpoint: [RESTAPIError], or a response that
    lacks a key. *)
Definition lookup_fails (r : result response) : Prop :=
  (∃ code desc, r = Raise (RESTAPIError code desc)) ∨
  (∃ resp, r = Return resp ∧ incomplete resp).

(** The three ways [discover_satellite] finds no usable endpoint. *)
Definition no_endpoint_at (e : event) : Prop :=
  (∃ code desc, lookup_error e = Some (RESTAPIError code desc)) ∨
  (∃ resp, lookup_answer e = Some resp ∧ incomplete resp) ∨
  (∃ endpoint timeout, probe_of e = Some (endpoint, timeout, false)).

(** The endpoint was validated: the last event is its successful probe. *)
Definition validated (timeout : Z) (t : list event) (v : value) : Prop :=
  ∃ endpoint e, v = VStr endpoint ∧ last t = Some e ∧
                probe_of e = Some (endpoint, timeout, true).

(** What holds of every run of [discover_satellite] with [deploy] false. *)
Record without_deploy (timeout : Z) (t : list event) (o : result value) : Prop := {
  nothing_mutated : Forall (λ e, is_mutating e = false ∧ is_launch_start e = false) t;
  endpoint_or_none : ∀ v, o = Return v → v = VNone ∨ validated timeout t v;
  nothing_caught_escapes : ∀ x, o = Raise x → caught x = false;
  none_on_api_error :
    every_point (at_each lookup_error
      (λ x _ _, ∀ code desc, x = RESTAPIError code desc → o = Return VNone)) [] t;
  none_on_missing_key :
    every_point (at_each lookup_answer
      (λ resp _ _, incomplete resp → o = Return VNone)) [] t;
  none_on_failed_probe :
    every_point (at_each probe_of (λ x _ _, x.2 = false → o = Return VNone)) [] t
}.

(** The trace begins with the first line of [launch_satellite]. *)
Definition starts_with_launch (t : list event) : Prop :=
  ∃ e rest, t = e :: rest ∧ is_launch_start e = true.

(** After a probe that failed once a launch had started. *)
Definition offline_ends_discover (o : result value) (x : string * Z * bool)
    (before post : list event) : Prop :=
  x.2 = false →
  Exists (λ e, is_launch_start e = true) before →
  o = Raise (SystemExit 1) ∧
  Forall (λ e, is_remote e = false ∧ is_launch_start e = false) post.

(** The platform whose satellite answers only a patient probe. *)
Definition warming_up : script := healthy (λ _ timeout, bool_decide (timeout = 120%Z)).

(** The platform that does not know the application. *)
Definition not_found : script :=
  script_with_get (λ _ _, Raise (RESTAPIError 404 "Not Found")) (healthy (λ _ _, true)).

(** The platform whose environment lacks the port. *)
Definition no_port : script :=
  script_with_get
    (λ _ _, Return (Response {[ "DOTCLOUD_SATELLITE_ZMQ_HOST" := "10.0.0.5" ]} [] EmptyString))
    (healthy (λ _ _, true)).

(** The platform whose recorded satellite is down and whose list of push
    endpoints cannot be read: the first GET, the lookup of the environment,
    succeeds, every later GET raises [RESTAPIError]. *)
Definition push_endpoints_down : script :=
  script_with_get
    (λ n _, match n with
            | O => Return (env_response "10.0.0.5" "9000")
            | S _ => Raise (RESTAPIError 500 "Internal Server Error")
            end)
    (healthy (λ _ _, false)).

(** The platform where the application is absent: the destroy call raises
    [RESTAPIError] 404, everything else works. *)
Definition nothing_to_destroy : script :=
  Script true (λ _ _, Return (env_response "10.0.0.5" "9000"))
    (Raise (RESTAPIError 404 "Not Found"))
    (λ _, Return (deploy_response "d1" "trace-1"))
    (λ name, Return name) (Return "rsync://push.example/skypipe0") (Return ())
    (Return 0%Z) (λ _ _, true).

(** ** Reading more of a trace *)

(** The deploy and trace identifiers of a log stream that was interrupted. *)
Definition stream_interrupted (e : event) : option (string * string) :=
  match e with
  | EvR (StreamDeployLogs _ deploy_id deploy_trace_id _) (Raise KeyboardInterrupt) =>
      Some (deploy_id, deploy_trace_id)
  | _ => None
  end.

(** The arguments of a log-stream call. *)
Definition stream_call (e : event) : option (string * string * string * bool) :=
  match e with
  | EvR (StreamDeployLogs app deploy_id deploy_trace_id follow) _ =>
      Some (app, deploy_id, deploy_trace_id, follow)
  | _ => None
  end.

Definition error_message (e : event) : option string :=
  match e with
  | EvT (CliError msg) _ => Some msg
  | _ => None
  end.

(** The deploy identifier and the answer of [cli._fmt_deploy_logs_command]. *)
Definition command_made (e : event) : option (string * string) :=
  match e with
  | EvT c x =>
      match c in top X return X → option (string * string) with
      | FmtDeployLogsCommand deploy_id => λ command, Some (deploy_id, command)
      | _ => λ _, None
      end x
  | EvR _ _ => None
  end.

Definition stdout_set (e : event) : option stream :=
  match e with
  | EvT (SetSysStdout s) _ => Some s
  | _ => None
  end.

Definition stdout_read (e : event) : option stream :=
  match e with
  | EvT c x =>
      match c in top X return X → option stream with
      | SysStdout => λ s, Some s
      | _ => λ _, None
      end x
  | EvR _ _ => None
  end.

Definition buffer_made (e : event) : option stream :=
  match e with
  | EvT c x =>
      match c in top X return X → option stream with
      | NewStringIO => λ s, Some s
      | _ => λ _, None
      end x
  | EvR _ _ => None
  end.

Definition destroy_error (e : event) : option exn :=
  match e with
  | EvR (UserDelete _) (Raise x) => Some x
  | _ => None
  end.


Definition deployments_url : string := "/applications/" +:+ APPNAME +:+ "/deployments".




(** The body and the response of a deployment trigger that returned. *)
Definition triggered (e : event) : option (list (string * pyval) * response) :=
  match e with
  | EvR c r =>
      match c in rop X return result X → option (list (string * pyval) * response) with
      | UserPost url body => λ r,
          match r with
          | Return resp => if bool_decide (url = deployments_url) then Some (body, resp) else None
          | Raise _ => None
          end
      | _ => λ _, None
      end r
  | EvT _ _ => None
  end.

(** The name and the address of a name resolution that returned. *)
Definition resolution (e : event) : option (string * string) :=
  match e with
  | EvR c r =>
      match c in rop X return result X → option (string * string) with
      | GetHostByName name => λ r,
          match r with
          | Return address => Some (name, address)
          | Raise _ => None
          end
      | _ => λ _, None
      end r
  | EvT _ _ => None
  end.

(** The place of a call in the sequence of [launch_satellite]: destroy,
    create, list the push endpoints, select one, push, trigger the
    deployment, follow the logs, look up the environment, resolve the
    host, probe. *)
Definition step_of (e : event) : option nat :=
  match e with
  | EvR (UserDelete _) _ => Some 0
  | EvR (UserPost url _) _ => Some (if bool_decide (url = "/applications") then 1 else 5)
  | EvR (UserGet url) _ => Some (if bool_decide (url = environment_url) then 7 else 2)
  | EvR (SelectEndpoint _ _) _ => Some 3
  | EvR (PushWithRsync _ _) _ => Some 4
  | EvR (StreamDeployLogs _ _ _ _) _ => Some 6
  | EvR (GetHostByName _) _ => Some 8
  | EvT (CheckSkypipeEndpoint _ _) _ => Some 9
  | EvT _ _ => None
  end.

Definition thread_started (e : event) : option (handle * stream) :=
  match e with
  | EvT (ThreadStart finish io) _ => Some (finish, io)
  | _ => None
  end.

Definition event_set (e : event) : option handle :=
  match e with
  | EvT (EventSet h) _ => Some h
  | _ => None
  end.

(** The events set since the latest start of a progress thread, in a list
    of events that has the latest first. *)
Fixpoint set_since_start (before : list event) : list handle :=
  match before with
  | [] => []
  | e :: before' =>
      match thread_started e with
      | Some _ => []
      | None =>
          match event_set e with
          | Some h => set_since_start before' ++ [h]
          | None => set_since_start before'
          end
      end
  end.


(** ** What more holds of a run *)

(** After an interrupted log stream: the three messages of lines 177-185,
    the second with the trace identifier, the third with the command made
    from the deploy identifier; [die] without a message; [sys.stdout] put
    back last; nothing remote; [SystemExit]. *)
Definition interrupt_reported (o : result value) (x : string * string)
    (before post : list event) : Prop :=
  o = Raise (SystemExit 1) ∧
  Forall (λ e, is_remote e = false) post ∧
  (∃ command,
     omap command_made post = [(x.1, command)] ∧
     omap error_message post =
       [interrupted_message; support_message x.2; resume_message command]) ∧
  omap die_message post = [None] ∧
  ∃ d, last post = Some d ∧ is_restore_stdout d = true.

(** After the buffer of line 171 is made: [sys.stdout] is set to it and
    then to what was read last from [sys.stdout], and to nothing else. *)
Definition redirect_undone (buffer : stream) (before post : list event) : Prop :=
  ∃ original,
    head (omap stdout_read before) = Some original ∧
    omap stdout_set post = [buffer; original].


(** After a destroy call that raised. *)
Definition destroy_error_passes (o : result value) (x : exn) (before post : list event)
  : Prop :=
  match x with
  | RESTAPIError _ _ => ∃ c rest, post = c :: rest ∧ is_create c = true
  | _ => o = Raise x ∧ post = []
  end.

(** The remote calls and the probe come in the order of [step_of], each
    once, with none left out before the last. *)
Definition in_order (t : list event) : Prop :=
  omap step_of t = seq 0 (length (omap step_of t)).


(** At a log-stream call: the application is [APPNAME], the logs are
    followed, and the identifiers are those of the response to the latest
    deployment trigger, which asked for no revision and no clean build. *)
Definition streamed_as_triggered (x : string * string * string * bool)
    (before post : list event) : Prop :=
  x.1.1.1 = APPNAME ∧ x.2 = true ∧
  ∃ resp,
    head (omap triggered before) =
      Some ([("revision", PNone); ("clean", PBool false)], resp) ∧
    item resp !! "deploy_id" = Some x.1.1.2 ∧
    trace_id resp = x.1.2.

(** After a deployment trigger whose response has no deploy identifier. *)
Definition deploy_id_required (o : result value) (x : list (string * pyval) * response)
    (before post : list event) : Prop :=
  item x.2 !! "deploy_id" = None →
  o = Raise (KeyError "deploy_id") ∧ post = [].

(** What [launch_satellite] returns: never [None]; a string only after
    its one probe, with the timeout 120, succeeded for that string; an
    integer only if it is the nonzero exit code of the log stream, and then
    no probe was made. *)
Definition launch_result (t : list event) (o : result value) : Prop :=
  match o with
  | Return VNone => False
  | Return (VStr endpoint) => omap probe_of t = [(endpoint, 120%Z, true)]
  | Return (VInt z) => z ≠ 0%Z ∧ omap stream_exit t = [z] ∧ omap probe_of t = []
  | Raise _ => True
  end.

(** At a probe: the endpoint is made of the address the resolver just
    gave for the host of the environment just looked up, and of its port. *)
Definition endpoint_composed (x : string * Z * bool) (before post : list event) : Prop :=
  ∃ d1 d2 rest resp name port address,
    before = d1 :: d2 :: rest ∧
    resolution d1 = Some (name, address) ∧
    lookup_answer d2 = Some resp ∧
    item resp !! "DOTCLOUD_SATELLITE_ZMQ_HOST" = Some name ∧
    item resp !! "DOTCLOUD_SATELLITE_ZMQ_PORT" = Some port ∧
    x.1.1 = "tcp://" +:+ address +:+ ":" +:+ port.

(** At the start of a progress thread: the event of the thread started
    before, if any, has been set since, and no other. *)
Definition previous_stopped (x : handle * stream) (before post : list event) : Prop :=
  set_since_start before =
    match omap thread_started before with
    | [] => []
    | (finish, _) :: _ => [finish]
    end.

(** At the end of a run: the event of the last progress thread has been
    set if the run came to the probe, and has not been set otherwise. *)
Definition last_thread_stopped (t : list event) : Prop :=
  match omap thread_started (rev t) with
  | [] => True
  | (finish, _) :: _ =>
      (omap probe_of t = [] → set_since_start (rev t) = []) ∧
      (omap probe_of t ≠ [] → set_since_start (rev t) = [finish])
  end.

(** What holds of the events of [discover_satellite] itself. *)
Definition own_part (timeout : Z) (pre : list event) : Prop :=
  Forall (λ e, is_prelude timeout e = true) pre ∧
  every_point (at_each probe_of endpoint_composed) [] pre.

(** The outcome of a run of [discover_satellite] without a launch. *)
Definition own_outcome (deploy : bool) (timeout : Z) (t : list event)
    (o : result value) : Prop :=
  match o with
  | Return VNone => deploy = false
  | Return (VStr endpoint) => omap probe_of t = [(endpoint, timeout, true)]
  | Return (VInt _) => False
  | Raise e => caught e = false
  end.

(** The runs of [discover_satellite], by the number of launches: none; one,
    whose outcome is the outcome; or two, the first entered after the probe
    failed and ended by an exception that line 115 catches. *)
Definition discover_shape (deploy : bool) (timeout : Z)
    (L : list event → result value → Prop) (t : list event) (o : result value) : Prop :=
  (own_part timeout t ∧ own_outcome deploy timeout t o) ∨
  (deploy = true ∧ ∃ pre t1, own_part timeout pre ∧ L t1 o ∧ t = pre ++ t1) ∨
  (deploy = true ∧ ∃ pre t1 e t2 endpoint,
     own_part timeout pre ∧ omap probe_of pre = [(endpoint, timeout, false)] ∧
     L t1 (Raise e) ∧ caught e = true ∧ L t2 o ∧ t = pre ++ t1 ++ t2).

(** What one launch does and returns. *)
Definition one_launch (t : list event) (o : result value) : Prop :=
  launch_result t o ∧ count is_launch_start t = 1 ∧
  every_point (at_each probe_of endpoint_composed) [] t.

(** What [discover_satellite] returns or raises. *)
Definition discover_result (deploy : bool) (t : list event) (o : result value) : Prop :=
  match o with
  | Return VNone => deploy = false
  | Return (VStr endpoint) => ∃ timeout, last (omap probe_of t) = Some (endpoint, timeout, true)
  | Return (VInt z) => deploy = true ∧ z ≠ 0%Z ∧ last (omap stream_exit t) = Some z
  | Raise e => caught e = true → deploy = true ∧ 0 < count is_launch_start t
  end.

(** The platform whose log stream is interrupted with Ctrl-C. *)
Definition interrupted : script :=
  script_with_stream (Raise KeyboardInterrupt) (healthy (λ _ _, true)).


(** The platform that cannot be reached for the destroy call. *)
Definition unreachable : script :=
  Script true (λ _ _, Return (env_response "10.0.0.5" "9000"))
    (Raise (OtherError "ConnectionError"))
    (λ _, Return (deploy_response "d1" "trace-1"))
    (λ name, Return name) (Return "rsync://push.example/skypipe0") (Return ())
    (Return 0%Z) (λ _ _, true).

(** The platform whose deployment trigger answers without a deploy
    identifier. *)
Definition no_deploy_id : script :=
  script_with_post (λ _, Return plain_response) (healthy (λ _ _, true)).

(** The client that was never set up. *)
Definition unconfigured : script :=
  Script false (λ _ _, Return (env_response "10.0.0.5" "9000"))
    (Return plain_response) (λ _, Return (deploy_response "d1" "trace-1"))
    (λ name, Return name) (Return "rsync://push.example/skypipe0") (Return ())
    (Return 0%Z) (λ _ _, true).

(** The resolver that does not know the host. *)
Definition unresolved : script :=
  Script true (λ _ _, Return (env_response "satellite.example" "9000"))
    (Return plain_response) (λ _, Return (deploy_response "d1" "trace-1"))
    (λ _, Raise (OtherError "socket.gaierror")) (Return "rsync://push.example/skypipe0")
    (Return ()) (Return 0%Z) (λ _ _, true).

(** A mutating call comes only after a launch has started. *)
Definition mutation_in_launch (_ : unit) (before post : list event) : Prop :=
  Exists (λ e, is_launch_start e = true) before.

(** ** Soundness of the calculus *)

Lemma wp_mono {A} (p : prog A) (Q Q' : list event → result A → Prop) :
  wp p Q → (∀ t o, Q t o → Q' t o) → wp p Q'.
Proof.
  revert Q Q'. induction p as [r | X c k IH | X c k IH]; intros Q Q' Hp HQ; simpl in *.
  - by apply HQ.
  - intros r. eapply IH; [apply Hp |]. intros t o. apply HQ.
  - intros x. eapply IH; [apply Hp |]. intros t o. apply HQ.
Qed.

Lemma wp_run {A} (p : prog A) (Q : list event → result A → Prop) :
  wp p Q → ∀ w h, Q (trace w h p) (outcome w h p).
Proof.
  unfold trace, outcome. revert Q.
  induction p as [r | X c k IH | X c k IH]; intros Q Hp w h; simpl in *.
  - done.
  - specialize (IH _ _ (Hp (answer w h c)) w (AskR c :: h)).
    by destruct (run w (AskR c :: h) (k (answer w h c))).
  - specialize (IH _ _ (Hp (reply w h c)) w (AskT c :: h)).
    by destruct (run w (AskT c :: h) (k (reply w h c))).
Qed.

Lemma wp_try_except {A} (body : prog A) handler (Q : list event → result A → Prop) :
  wp body (λ t o,
    match o with
    | Return a => Q t (Return a)
    | Raise e =>
        match handler e with
        | Some h => wp h (λ t' o', Q (t ++ t') o')
        | None => Q t (Raise e)
        end
    end) →
  wp (try_except body handler) Q.
Proof.
  revert Q. induction body as [[a | e] | X c k IH | X c k IH]; intros Q H; simpl in *.
  - done.
  - destruct (handler e); [| done]. eapply wp_mono; [exact H |]. done.
  - intros r. apply IH, H.
  - intros x. apply IH, H.
Qed.

(** ** Positions of a trace *)

Lemma every_point_split Φ before t :
  every_point Φ before t →
  ∀ pre e post, t = pre ++ e :: post → Φ (rev pre ++ before) e post.
Proof.
  revert before. induction t as [| a t IH]; intros before Ht pre e post Heq.
  - by destruct pre.
  - destruct Ht as [Ha Ht]. destruct pre as [| b pre]; simplify_eq/=.
    + done.
    + rewrite <- app_assoc. by apply (IH (b :: before)).
Qed.

Lemma every_point_app Φ before t1 t2 :
  every_point (λ b e p, Φ b e (p ++ t2)) before t1 →
  every_point Φ (rev t1 ++ before) t2 →
  every_point Φ before (t1 ++ t2).
Proof.
  revert before. induction t1 as [| a t1 IH]; intros before H1 H2; simpl in *.
  - done.
  - destruct H1 as [Ha H1]. split; [done |]. apply IH; [done |].
    by rewrite <- app_assoc in H2.
Qed.

Lemma every_point_impl Φ Φ' before before' t :
  (∀ b b' e p, Φ b e p → Φ' b' e p) →
  every_point Φ before t → every_point Φ' before' t.
Proof.
  intros HΦ. revert before before'.
  induction t as [| a t IH]; intros before before' H; simpl in *; [done |].
  destruct H as [Ha H]. split; [by eapply HΦ | by eapply IH].
Qed.

Lemma at_each_skip {X} (sel : event → option X) Ψ before e post :
  sel e = None → at_each sel Ψ before e post.
Proof. intros He x Hx. congruence. Qed.

Lemma at_each_hit {X} (sel : event → option X) Ψ before e post x :
  sel e = Some x → Ψ x before post → at_each sel Ψ before e post.
Proof. intros He Hx y Hy. congruence. Qed.

Lemma every_point_hits {X} (sel : event → option X) Ψ before t :
  Forall (λ h, Ψ h.1.1 h.1.2 h.2) (hits sel before t) →
  every_point (at_each sel Ψ) before t.
Proof.
  revert before. induction t as [| e t IH]; intros before H; simpl in *; [done |].
  destruct (sel e) as [x |] eqn:He.
  - inversion_clear H as [| ? ? Hx Ht]. split; [| by apply IH].
    by apply (at_each_hit _ _ _ _ _ x).
  - split; [by apply at_each_skip | by apply IH].
Qed.

Lemma every_point_Forall {X} (sel : event → option X) (P : X → Prop) before t :
  every_point (at_each sel (λ x _ _, P x)) before t →
  Forall (λ e, ∀ x, sel e = Some x → P x) t.
Proof.
  revert before. induction t as [| e t IH]; intros before H; [constructor |].
  destruct H as [He Ht]. constructor; [exact He | by eapply IH].
Qed.

Lemma count_app P t1 t2 : count P (t1 ++ t2) = count P t1 + count P t2.
Proof. unfold count. by rewrite List.filter_app, length_app. Qed.

Lemma prelude_probe timeout e :
  is_prelude timeout e = true →
  is_launch_start e = false ∧ probe_timeout_is timeout e.
Proof.
  intros He. split.
  - by destruct e as [X c r | X c x]; [| destruct c].
  - intros x Hx. destruct e as [X c r | X c y]; [done |].
    destruct c; simplify_eq/=. by apply bool_decide_eq_true in He.
Qed.

Lemma count_prelude timeout pre :
  Forall (λ e, is_prelude timeout e = true) pre → count is_launch_start pre = 0.
Proof.
  induction 1 as [| e pre He _ IH]; [done |].
  apply prelude_probe in He as [He _]. unfold count in *. simpl. by rewrite He.
Qed.

Lemma every_point_before_launch Φ before t :
  Forall (λ e, is_launch_start e = false) before →
  Forall (λ e, is_launch_start e = false) t →
  every_point (at_each probe_of
    (λ x b p, x.2 = false → Exists (λ e, is_launch_start e = true) b → Φ x b p))
    before t.
Proof.
  revert before. induction t as [| a t IH]; intros before Hb Ht; simpl; [done |].
  inversion_clear Ht as [| ? ? Ha Ht']. split.
  - intros x _ _ Hex. apply Exists_exists in Hex as (e & He & Hstart).
    rewrite Forall_forall in Hb. rewrite (Hb e He) in Hstart. done.
  - apply IH; [by constructor | done].
Qed.

(** ** Symbolic execution *)

(** One step of [wp], with a case split wherever the program looks at an
    answer. *)
Ltac wp_red :=
  cbn [wp prog_bind try_except try_finally mbind prog_mbind mret prog_ret
       tell call_r die raise check_skypipe_endpoint negb].

Ltac wp_step :=
  first
    [ progress wp_red
    | match goal with
      | |- ∀ r : result _, _ => intros [?|?]
      | |- ∀ x : bool, _ => intros []
      | |- ∀ x : unit, _ => intros []
      | |- ∀ x, _ => intro
      | |- context [getitem ?d ?k] => unfold getitem
      | |- context [match ?d !! ?k with _ => _ end] => destruct (d !! k) eqn:?
      | |- context [bool_decide ?P] => destruct (bool_decide_reflect P)
      | e : exn |- wp ?p _ => match p with context [e] => destruct e end
      end ].

Ltac wp_all :=
  unfold discover_satellite, launch_satellite, destroy_satellite,
    lookup_endpoint, wait_for;
  repeat wp_step;
  repeat match goal with x : unit |- _ => destruct x end.

(** At a leaf: compute the positions the selector picks and hand each
    to [tac]. *)
Ltac scan tac :=
  apply every_point_hits;
  match goal with
  | |- Forall ?P ?l => let l' := eval vm_compute in l in change (Forall P l')
  end;
  repeat (apply Forall_cons; split; [cbn [fst snd]; tac |]);
  apply Forall_nil_2.

Ltac run_red :=
  cbn [run prog_bind try_except try_finally mbind prog_mbind mret prog_ret
       tell call_r die raise check_skypipe_endpoint negb fst snd].

Ltac absorbs_step :=
  first
    [ progress cbn [absorbs prog_bind try_except try_finally mbind prog_mbind mret
                    prog_ret tell call_r die raise check_skypipe_endpoint negb]
    | match goal with
      | |- True => exact I
      | |- _ ∧ True => split; [| exact I]
      | |- _ ∧ _ = _ => split; [| reflexivity]
      | |- ∀ r : result _, _ => intros [?|?]
      | |- ∀ x : bool, _ => intros []
      | |- ∀ x, _ => intro
      | |- context [getitem ?d ?k] => unfold getitem
      | |- context [match ?d !! ?k with _ => _ end] => destruct (d !! k) eqn:?
      | |- context [bool_decide ?P] => destruct (bool_decide_reflect P)
      | e : exn |- absorbs ?p => match p with context [e] => destruct e end
      end ].

Ltac prelude :=
  repeat first
    [ apply Forall_nil_2
    | apply Forall_cons; split; [first [reflexivity | by apply bool_decide_eq_true_2] |] ].

Ltac prefix_of t t1 :=
  lazymatch t with
  | t1 => constr:(@nil event)
  | ?e :: ?t' => let p := prefix_of t' t1 in constr:(e :: p)
  end.

(** ** Every run of [launch_satellite] *)

Lemma launch_wp_destroyed dir :
  wp (launch_satellite dir)
    (λ t _, every_point (at_each (when is_create) destroyed_just_before) [] t).
Proof. wp_all; scan ltac:(unfold destroyed_just_before; eauto). Qed.

Lemma launch_wp_conflict dir :
  wp (launch_satellite dir)
    (λ t o, every_point (at_each create_error (conflict_is_fatal o)) [] t).
Proof. wp_all; scan ltac:(unfold conflict_is_fatal; intros; simplify_eq; eauto). Qed.

Lemma launch_wp_offline dir :
  wp (launch_satellite dir)
    (λ t o, every_point (at_each probe_of (offline_is_fatal o)) [] t).
Proof.
  wp_all; scan ltac:(unfold offline_is_fatal; intros; simplify_eq/=;
                      repeat split; eauto; repeat constructor).
Qed.

Lemma launch_wp_exit_code dir :
  wp (launch_satellite dir)
    (λ t o, every_point (at_each stream_exit (exit_code_returned o)) [] t).
Proof.
  wp_all; scan ltac:(unfold exit_code_returned; intros; first [done | simplify_eq/=; eauto]).
Qed.

Lemma launch_wp_lookup_next dir :
  wp (launch_satellite dir)
    (λ t _, every_point (at_each stream_raised lookup_comes_next) [] t).
Proof.
  wp_all; scan ltac:(unfold lookup_comes_next; intros;
                      first [done | eexists; split; reflexivity]).
Qed.

Lemma launch_wp_probes dir :
  wp (launch_satellite dir)
    (λ t _, starts_with_launch t ∧ Forall (probe_timeout_is 120) t).
Proof.
  wp_all.
  all: split; [by eexists _, _ |].
  all: apply (every_point_Forall probe_of (λ x, x.1.2 = 120%Z) []).
  all: scan ltac:(reflexivity).
Qed.

Lemma launch_wp_one_start dir :
  wp (launch_satellite dir) (λ t _, count is_launch_start t = 1).
Proof. wp_all; reflexivity. Qed.

Lemma launch_absorbs dir : absorbs (launch_satellite dir).
Proof.
  unfold launch_satellite, destroy_satellite, lookup_endpoint, wait_for.
  repeat absorbs_step.
Qed.

Lemma absorbs_run {A} (p : prog A) (raising returning : world) :
  absorbs p →
  (∀ X h (c : rop X), swapped c (answer raising h c) (answer returning h c)) →
  (∀ X h (c : top X), reply raising h c = reply returning h c) →
  ∀ h, outcome raising h p = outcome returning h p ∧
       Forall2 swapped_event (trace raising h p) (trace returning h p).
Proof.
  intros Hp HR HT. unfold outcome, trace.
  induction p as [r | X c k IH | X c k IH]; intros h; simpl in *.
  - split; [done | constructor].
  - destruct Hp as [Hk Hc].
    destruct (HR X h c) as [Heq | Hswap].
    + rewrite Heq. specialize (IH (answer returning h c) (Hk _) (AskR c :: h)).
      destruct (run raising _ _), (run returning _ _); simpl in *.
      destruct IH as [-> IH]. split; [done |]. constructor; [by left | done].
    + destruct c; try done. destruct Hswap as [HRr HRt].
      rewrite HRr, HRt, Hc.
      specialize (IH (Return 0%Z) (Hk _)
                    (AskR (StreamDeployLogs app deploy_id deploy_trace_id follow) :: h)).
      destruct (run raising _ _), (run returning _ _); simpl in *.
      destruct IH as [-> IH]. split; [done |]. constructor; [by right | done].
  - rewrite HT. specialize (IH (reply returning h c) (Hp _) (AskT c :: h)).
    destruct (run raising _ _), (run returning _ _); simpl in *.
    destruct IH as [-> IH]. split; [done |]. constructor; [by left | done].
Qed.

(** ** Every run of [discover_satellite] *)

Lemma discover_wp dir deploy timeout (L : list event → result value → Prop) :
  wp (launch_satellite dir) L →
  wp (discover_satellite dir deploy timeout) (discover_runs L timeout).
Proof.
  intros HL. unfold discover_satellite, lookup_endpoint. destruct deploy.
  all: repeat wp_step.
  all: repeat match goal with x : unit |- _ => destruct x end.
  all: try (apply wp_try_except; eapply wp_mono; [exact HL |];
            intros t1 [v | e] H1;
            [| destruct e; lazy beta iota;
               try (eapply wp_mono; [exact HL |]; intros t2 o2 H2)]).
  all: try (eapply wp_mono; [exact HL |]; intros t1 o1 H1).
  all: match goal with
       | H2 : ?L0 ?t2 _, H1 : ?L0 ?t1 (Raise ?e) |- discover_runs ?L0 _ ?t _ =>
           let pre := prefix_of t constr:(t1 ++ t2) in
           exists pre; split;
           [prelude | right; right; exists t1, e, t2; by repeat split]
       | H1 : ?L0 ?t1 _ |- discover_runs ?L0 _ ?t _ =>
           let pre := prefix_of t t1 in
           exists pre; split; [prelude | right; left; exists t1; by split]
       | |- discover_runs _ _ ?t _ =>
           exists t; split;
           [prelude | left; split; [reflexivity | intros ? ?; by simplify_eq]]
       end.
Qed.

Lemma discover_wp_without_deploy dir timeout :
  wp (discover_satellite dir false timeout) (without_deploy timeout).
Proof.
  wp_all.
  all: split.
  all: try (repeat constructor; fail).
  all: try (intros ? ?; simplify_eq;
            first [by left | right; eexists _, _; by repeat split | done]).
  all: try (scan ltac:(first [done | intros; simplify_eq/=; done
                             | intros [|]; congruence])).
Qed.

Lemma discover_offline dir deploy timeout w h :
  every_point (at_each probe_of
      (offline_ends_discover (outcome w h (discover_satellite dir deploy timeout)))) []
    (trace w h (discover_satellite dir deploy timeout)).
Proof.
  destruct (wp_run _ _ (discover_wp dir deploy timeout _ (launch_wp_offline dir)) w h)
    as (pre & Hpre & Hshape).
  assert (Forall (λ e, is_launch_start e = false) pre) as Hquiet.
  { eapply Forall_impl; [exact Hpre |]. intros e He. by apply prelude_probe in He as [? _]. }
  destruct Hshape as [[-> _] | [(t1 & H1 & ->) | (t1 & e & t2 & H1 & He & H2 & ->)]].
  - by apply (every_point_before_launch (λ _ _ p, _ ∧ Forall _ p)).
  - apply every_point_app.
    + by apply (every_point_before_launch (λ _ _ p, _ ∧ Forall _ (p ++ t1))).
    + eapply every_point_impl; [| exact H1].
      intros b b' ev p Hev x Hx Hfail _. by destruct (Hev x Hx Hfail) as (_ & ? & ? & _).
  - apply every_point_app.
    + by apply (every_point_before_launch (λ _ _ p, _ ∧ Forall _ (p ++ t1 ++ t2))).
    + apply every_point_app.
      * eapply every_point_impl; [| exact H1].
        intros b b' ev p Hev x Hx Hfail _.
        destruct (Hev x Hx Hfail) as (_ & Ho & _). by simplify_eq.
      * eapply every_point_impl; [| exact H2].
        intros b b' ev p Hev x Hx Hfail _. by destruct (Hev x Hx Hfail) as (_ & ? & ? & _).
Qed.

(** In every run of [discover_satellite] at most two launches start. *)
Lemma discover_launches_at_most_twice dir w h deploy timeout :
  count is_launch_start (trace w h (discover_satellite dir deploy timeout)) ≤ 2.
Proof.
  destruct (wp_run _ _ (discover_wp dir deploy timeout _ (launch_wp_one_start dir)) w h)
    as (pre & Hpre & Hshape).
  apply count_prelude in Hpre.
  destruct Hshape as [[-> _] | [(t1 & H1 & ->) | (t1 & e & t2 & H1 & _ & H2 & ->)]];
    rewrite ?count_app; lia.
Qed.

(** ** The claims *)

(** C1 fails on the code.  The recorded satellite does not answer, so
    line 114 calls [launch_satellite] inside the [try]; reading the push
    endpoints raises [RESTAPIError], which line 115 catches, and line 116
    calls [launch_satellite] again: two launches, two destroy calls, two
    create calls in one call of [discover_satellite]. *)
Lemma discover_launches_twice :
  let w := scripted push_endpoints_down in
  let t := trace w [] (discover_satellite_default "/opt") in
  count is_launch_start t = 2 ∧ count is_destroy t = 2 ∧ count is_create t = 2 ∧
  outcome w [] (discover_satellite_default "/opt") =
    Raise (RESTAPIError 500 "Internal Server Error").
Proof. by vm_compute. Qed.

(** C2, amended.  If the log stream returns a nonzero exit code, then
    [launch_satellite] returns that exit code as its value; after the
    stream only [sys.stdout] is put back, so the environment lookup and the
    probe after the deployment are not invoked. *)
Theorem launch_returns_exit_code dir w h pre e post z :
  trace w h (launch_satellite dir) = pre ++ e :: post →
  stream_exit e = Some z →
  z ≠ 0%Z →
  outcome w h (launch_satellite dir) = Return (VInt z) ∧
  (∃ d, post = [d] ∧ is_restore_stdout d = true) ∧
  Forall (λ e', is_lookup e' = false ∧ is_probe e' = false) post.
Proof.
  intros Ht He Hz.
  pose proof (wp_run _ _ (launch_wp_exit_code dir) w h) as Hall.
  destruct (every_point_split _ _ _ Hall pre e post Ht _ He Hz)
    as (Ho & d & -> & Hd).
  split; [done |]. split; [by exists d |].
  constructor; [| constructor].
  by destruct d as [X c r | X c x]; [| destruct c].
Qed.

Lemma launch_returns_exit_code_witness :
  let w := scripted (failing_deploy "trace-1") in
  let t := trace w [] (launch_satellite "/opt") in
  outcome w [] (launch_satellite "/opt") = Return (VInt 1) ∧
  (∃ d, drop 20 t = [d] ∧ is_restore_stdout d = true) ∧
  Forall (λ e', is_lookup e' = false ∧ is_probe e' = false) (drop 20 t).
Proof.
  intros w t.
  apply (launch_returns_exit_code "/opt" w [] (take 19 t)
           (EvR (StreamDeployLogs APPNAME "d1" "trace-1" true) (Return 1%Z))
           (drop 20 t) 1%Z).
  - vm_compute. reflexivity.
  - reflexivity.
  - done.
Defined.

(** C2 as stated fails: on a platform whose log stream ends with [1] the
    call returns the integer [1], an ordinary value, and nothing in the
    result tells the trace identifier of the deployment. *)
Lemma launch_deploy_failure_counterexample :
  outcome (scripted (failing_deploy "trace-1")) [] (launch_satellite "/opt") =
    Return (VInt 1) ∧
  ¬ ∃ carried : result value → string,
      ∀ tid, carried (outcome (scripted (failing_deploy tid)) []
                        (launch_satellite "/opt")) = tid.
Proof.
  split; [by vm_compute |].
  intros [carried H].
  pose proof (H "trace-1") as H1. pose proof (H "trace-2") as H2.
  vm_compute in H1, H2. congruence.
Qed.

(** C3.  With [deploy] true and the configuration loaded: if the lookup
    of the environment raises [RESTAPIError], or returns a response that
    lacks the host or the port, then what follows the lookup is one run of
    [launch_satellite], and the outcome of [discover_satellite] is the
    outcome of that run: the error of the lookup is dropped. *)
Theorem discover_lookup_failure_redeploys dir w h timeout :
  reply w h ConfigLoaded = true →
  lookup_fails (answer w (AskT ConfigLoaded :: h) (UserGet environment_url)) →
  let r := answer w (AskT ConfigLoaded :: h) (UserGet environment_url) in
  let h' := AskR (UserGet environment_url) :: AskT ConfigLoaded :: h in
  trace w h (discover_satellite dir true timeout) =
    EvT ConfigLoaded true :: EvR (UserGet environment_url) r ::
      trace w h' (launch_satellite dir) ∧
  outcome w h (discover_satellite dir true timeout) =
    outcome w h' (launch_satellite dir).
Proof.
  intros Hloaded Hfails r h'. subst r h'.
  unfold trace, outcome, discover_satellite, lookup_endpoint.
  run_red. rewrite Hloaded. run_red.
  destruct Hfails as [(code & desc & ->) | (resp & -> & Hresp)]; run_red.
  - by destruct (run w _ (launch_satellite dir)).
  - unfold getitem.
    destruct Hresp as [Hhost | Hport].
    + destruct (item resp !! "DOTCLOUD_SATELLITE_ZMQ_PORT"); run_red.
      * rewrite Hhost. run_red. by destruct (run w _ (launch_satellite dir)).
      * by destruct (run w _ (launch_satellite dir)).
    + rewrite Hport. run_red. by destruct (run w _ (launch_satellite dir)).
Qed.

Lemma discover_lookup_failure_redeploys_witness :
  let w := scripted not_found in
  let r := answer w [AskT ConfigLoaded] (UserGet environment_url) in
  let h' := [AskR (UserGet environment_url); AskT ConfigLoaded] in
  trace w [] (discover_satellite "/opt" true 5) =
    EvT ConfigLoaded true :: EvR (UserGet environment_url) r ::
      trace w h' (launch_satellite "/opt") ∧
  outcome w [] (discover_satellite "/opt" true 5) =
    outcome w h' (launch_satellite "/opt").
Proof.
  apply (discover_lookup_failure_redeploys "/opt" (scripted not_found) [] 5).
  - reflexivity.
  - left. by exists 404%Z, "Not Found".
Defined.

Example discover_redeploys_on_missing_port :
  let w := scripted no_port in
  count is_launch_start (trace w [] (discover_satellite "/opt" true 5)) = 1 ∧
  hd_error (trace w [AskR (UserGet environment_url); AskT ConfigLoaded]
              (launch_satellite "/opt")) =
    Some (EvT (CliInfo "Launching skypipe satellite:") ()).
Proof. by vm_compute. Qed.

(** C4.  In every run of [launch_satellite], in any world and after any
    history, the event just before a create call (the POST to
    /applications) is the destroy call, and that call is over: it returned
    or raised the [RESTAPIError] that [destroy_satellite] absorbs. *)
Theorem launch_destroy_before_create dir w h pre e post :
  trace w h (launch_satellite dir) = pre ++ e :: post →
  is_create e = true →
  ∃ pre' d, pre = pre' ++ [d] ∧ is_completed_destroy d = true.
Proof.
  intros Ht He.
  pose proof (wp_run _ _ (launch_wp_destroyed dir) w h) as Hall.
  destruct (every_point_split _ _ _ Hall pre e post Ht ()) as (d & rest & Hpre & Hd);
    [by unfold when; rewrite He |].
  rewrite app_nil_r in Hpre. exists (rev rest), d. split; [| done].
  by rewrite <- (rev_involutive pre), Hpre.
Qed.

Lemma launch_destroy_before_create_witness :
  let t := trace (scripted nothing_to_destroy) [] (launch_satellite "/opt") in
  ∃ pre' d, take 6 t = pre' ++ [d] ∧ is_completed_destroy d = true.
Proof.
  intros t.
  apply (launch_destroy_before_create "/opt" (scripted nothing_to_destroy) []
           (take 6 t)
           (EvR (UserPost "/applications" create_body)
              (Return (deploy_response "d1" "trace-1")))
           (drop 7 t)).
  - vm_compute. reflexivity.
  - reflexivity.
Defined.

Example launch_over_absent_application :
  let t := trace (scripted nothing_to_destroy) [] (launch_satellite "/opt") in
  t !! 5 = Some (EvR (UserDelete "/applications/skypipe0")
                   (Raise (RESTAPIError 404 "Not Found"))) ∧
  t !! 6 = Some (EvR (UserPost "/applications" create_body)
                   (Return (deploy_response "d1" "trace-1"))) ∧
  outcome (scripted nothing_to_destroy) [] (launch_satellite "/opt") =
    Return (VStr "tcp://10.0.0.5:9000").
Proof. by vm_compute. Qed.

(** C5.  If the lookup returns host 10.0.0.5 and port 9000, the name
    resolves to itself and the probe of tcp://10.0.0.5:9000 with the
    timeout passed in succeeds, then [discover_satellite] returns that
    endpoint after four calls (configuration, lookup, resolution, probe),
    none of which is a destroy, create, push or deployment trigger. *)
Theorem discover_existing_endpoint dir w h deploy timeout resp :
  reply w h ConfigLoaded = true →
  answer w (AskT ConfigLoaded :: h) (UserGet environment_url) = Return resp →
  item resp !! "DOTCLOUD_SATELLITE_ZMQ_HOST" = Some "10.0.0.5" →
  item resp !! "DOTCLOUD_SATELLITE_ZMQ_PORT" = Some "9000" →
  answer w (AskR (UserGet environment_url) :: AskT ConfigLoaded :: h)
    (GetHostByName "10.0.0.5") = Return "10.0.0.5" →
  reply w (AskR (GetHostByName "10.0.0.5") :: AskR (UserGet environment_url) ::
           AskT ConfigLoaded :: h)
    (CheckSkypipeEndpoint "tcp://10.0.0.5:9000" timeout) = true →
  outcome w h (discover_satellite dir deploy timeout) =
    Return (VStr "tcp://10.0.0.5:9000") ∧
  trace w h (discover_satellite dir deploy timeout) =
    [EvT ConfigLoaded true; EvR (UserGet environment_url) (Return resp);
     EvR (GetHostByName "10.0.0.5") (Return "10.0.0.5");
     EvT (CheckSkypipeEndpoint "tcp://10.0.0.5:9000" timeout) true] ∧
  Forall (λ e, is_mutating e = false ∧ is_launch_start e = false)
    (trace w h (discover_satellite dir deploy timeout)).
Proof.
  intros Hloaded Hget Hhost Hport Hresolve Hprobe.
  assert (run w h (discover_satellite dir deploy timeout) =
          ([EvT ConfigLoaded true; EvR (UserGet environment_url) (Return resp);
            EvR (GetHostByName "10.0.0.5") (Return "10.0.0.5");
            EvT (CheckSkypipeEndpoint "tcp://10.0.0.5:9000" timeout) true],
           Return (VStr "tcp://10.0.0.5:9000"))) as Hrun.
  { unfold discover_satellite, lookup_endpoint.
    run_red. rewrite Hloaded. run_red. rewrite Hget. run_red.
    unfold getitem. rewrite Hport. run_red. rewrite Hhost. run_red.
    rewrite Hresolve. run_red.
    change ("tcp://" +:+ "10.0.0.5" +:+ ":" +:+ "9000") with "tcp://10.0.0.5:9000".
    rewrite Hprobe. by run_red. }
  unfold outcome, trace. rewrite Hrun. repeat split. repeat constructor.
Qed.

Lemma discover_existing_endpoint_witness :
  let w := scripted (healthy (λ _ _, true)) in
  outcome w [] (discover_satellite_default "/opt") = Return (VStr "tcp://10.0.0.5:9000") ∧
  trace w [] (discover_satellite_default "/opt") =
    [EvT ConfigLoaded true;
     EvR (UserGet environment_url) (Return (env_response "10.0.0.5" "9000"));
     EvR (GetHostByName "10.0.0.5") (Return "10.0.0.5");
     EvT (CheckSkypipeEndpoint "tcp://10.0.0.5:9000" default_timeout) true] ∧
  Forall (λ e, is_mutating e = false ∧ is_launch_start e = false)
    (trace w [] (discover_satellite_default "/opt")).
Proof.
  apply (discover_existing_endpoint "/opt" (scripted (healthy (λ _ _, true))) []
           default_deploy default_timeout (env_response "10.0.0.5" "9000"));
    reflexivity.
Defined.

(** C6.  If a probe of [launch_satellite] fails, then it was made with
    the timeout 120, the run ends with [SystemExit] through the [die] of
    line 204, and after the probe no remote call is made and no launch is
    started: no destroy, no create.  The same holds of the whole call of
    [discover_satellite]: if a probe fails after a launch has started, the
    call ends with that [SystemExit], which line 115 does not catch, and
    nothing remote and no launch follows the probe. *)
Theorem launch_offline_is_fatal dir w h :
  (∀ pre e post endpoint timeout,
     trace w h (launch_satellite dir) = pre ++ e :: post →
     probe_of e = Some (endpoint, timeout, false) →
     timeout = 120%Z ∧
     outcome w h (launch_satellite dir) = Raise (SystemExit 1) ∧
     Forall (λ e', is_remote e' = false ∧ is_launch_start e' = false) post ∧
     ∃ d, last post = Some d ∧
          die_message d = Some (Some "Satellite failed to come online")) ∧
  (∀ deploy timeout pre e post endpoint timeout',
     trace w h (discover_satellite dir deploy timeout) = pre ++ e :: post →
     probe_of e = Some (endpoint, timeout', false) →
     Exists (λ e', is_launch_start e' = true) pre →
     outcome w h (discover_satellite dir deploy timeout) = Raise (SystemExit 1) ∧
     Forall (λ e', is_remote e' = false ∧ is_launch_start e' = false) post).
Proof.
  split.
  - intros pre e post endpoint timeout Ht He.
    pose proof (wp_run _ _ (launch_wp_offline dir) w h) as Hall.
    exact (every_point_split _ _ _ Hall pre e post Ht _ He eq_refl).
  - intros deploy timeout pre e post endpoint timeout' Ht He Hstarted.
    apply (every_point_split _ _ _ (discover_offline dir deploy timeout w h)
             pre e post Ht _ He eq_refl).
    rewrite app_nil_r. apply Exists_exists in Hstarted as (e' & Hin & He').
    apply Exists_exists. exists e'. split; [| done].
    apply list_elem_of_In. rewrite <- in_rev. by apply list_elem_of_In.
Qed.

Lemma launch_offline_is_fatal_witness :
  let w := scripted never_online in
  let t := trace w [] (launch_satellite "/opt") in
  let t' := trace w [] (discover_satellite_default "/opt") in
  (120%Z = 120%Z ∧
   outcome w [] (launch_satellite "/opt") = Raise (SystemExit 1) ∧
   Forall (λ e', is_remote e' = false ∧ is_launch_start e' = false) (drop 30 t) ∧
   ∃ d, last (drop 30 t) = Some d ∧
        die_message d = Some (Some "Satellite failed to come online")) ∧
  (outcome w [] (discover_satellite_default "/opt") = Raise (SystemExit 1) ∧
   Forall (λ e', is_remote e' = false ∧ is_launch_start e' = false) (drop 34 t')).
Proof.
  intros w t t'. split.
  - apply (proj1 (launch_offline_is_fatal "/opt" w []) (take 29 t)
             (EvT (CheckSkypipeEndpoint "tcp://10.0.0.5:9000" 120) false)
             (drop 30 t) "tcp://10.0.0.5:9000" 120%Z).
    + vm_compute. reflexivity.
    + reflexivity.
  - apply (proj2 (launch_offline_is_fatal "/opt" w []) default_deploy default_timeout
             (take 33 t')
             (EvT (CheckSkypipeEndpoint "tcp://10.0.0.5:9000" 120) false)
             (drop 34 t') "tcp://10.0.0.5:9000" 120%Z).
    + vm_compute. reflexivity.
    + reflexivity.
    + apply Exists_exists.
      exists (EvT (CliInfo "Launching skypipe satellite:") ()).
      split; [| reflexivity]. vm_compute. do 4 right. by left.
Defined.

(** C7.  If the create call is refused with HTTP status 409, then
    [launch_satellite] ends with [SystemExit]; after the refused call comes
    one event only, the [die] with the message of line 144, so no push,
    deployment trigger, log stream or probe is invoked. *)
Theorem launch_create_conflict_is_fatal dir w h pre e post desc :
  trace w h (launch_satellite dir) = pre ++ e :: post →
  create_error e = Some (RESTAPIError 409 desc) →
  outcome w h (launch_satellite dir) = Raise (SystemExit 1) ∧
  (∃ d, post = [d] ∧ die_message d = Some (Some already_exists_message)) ∧
  Forall (λ e', is_push e' = false ∧ is_deploy_trigger e' = false ∧
                is_stream e' = false ∧ is_probe e' = false) post.
Proof.
  intros Ht He.
  pose proof (wp_run _ _ (launch_wp_conflict dir) w h) as Hall.
  destruct (every_point_split _ _ _ Hall pre e post Ht _ He desc eq_refl)
    as (Ho & d & -> & Hd).
  split; [done |]. split; [by exists d |].
  constructor; [| constructor]. by destruct d as [X c r | X c x]; [| destruct c].
Qed.

Lemma launch_create_conflict_is_fatal_witness :
  let w := scripted still_there in
  let t := trace w [] (launch_satellite "/opt") in
  outcome w [] (launch_satellite "/opt") = Raise (SystemExit 1) ∧
  (∃ d, drop 7 t = [d] ∧ die_message d = Some (Some already_exists_message)) ∧
  Forall (λ e', is_push e' = false ∧ is_deploy_trigger e' = false ∧
                is_stream e' = false ∧ is_probe e' = false) (drop 7 t).
Proof.
  intros w t.
  apply (launch_create_conflict_is_fatal "/opt" w [] (take 6 t)
           (EvR (UserPost "/applications" create_body)
              (Raise (RESTAPIError 409 "Conflict")))
           (drop 7 t) "Conflict").
  - vm_compute. reflexivity.
  - reflexivity.
Defined.

(** C8.  The timeout of the probe is a parameter of
    [discover_satellite], with default 5, and the literal 120 in
    [launch_satellite]; the two differ.  Every probe of a run of
    [launch_satellite] has the timeout 120.  A run of [discover_satellite]
    splits in two: its own events, before any launch, where every probe
    has the timeout passed in, and the events from the first launch on,
    where every probe has the timeout 120. *)
Theorem probe_timeouts dir :
  default_timeout = 5%Z ∧
  default_timeout ≠ 120%Z ∧
  (∀ w h, Forall (probe_timeout_is 120) (trace w h (launch_satellite dir))) ∧
  (∀ w h deploy timeout,
     ∃ own rest,
       trace w h (discover_satellite dir deploy timeout) = own ++ rest ∧
       Forall (λ e, is_launch_start e = false ∧ probe_timeout_is timeout e) own ∧
       (rest = [] ∨ starts_with_launch rest) ∧
       Forall (probe_timeout_is 120) rest).
Proof.
  split; [done |]. split; [done |]. split.
  - intros w h. apply (wp_run _ _ (launch_wp_probes dir) w h).
  - intros w h deploy timeout.
    destruct (wp_run _ _ (discover_wp dir deploy timeout _ (launch_wp_probes dir)) w h)
      as (pre & Hpre & Hshape).
    exists pre.
    assert (Forall (λ e, is_launch_start e = false ∧ probe_timeout_is timeout e) pre)
      as Hown.
    { eapply Forall_impl; [exact Hpre |]. intros e. apply prelude_probe. }
    destruct Hshape as [[Ht _] | [(t1 & [Hs1 H1] & Ht)
                                 | (t1 & e & t2 & [Hs1 H1] & _ & [_ H2] & Ht)]].
    + exists []. rewrite app_nil_r. repeat split; [done | done | by left | constructor].
    + exists t1. repeat split; [done | done | by right | done].
    + exists (t1 ++ t2). repeat split; [done | done | | by apply Forall_app].
      right. destruct Hs1 as (e1 & rest & -> & He1). by exists e1, (rest ++ t2).
Qed.

Example discover_slow_satellite :
  let w := scripted warming_up in
  let t := trace w [] (discover_satellite_default "/opt") in
  omap probe_of t =
    [("tcp://10.0.0.5:9000", 5%Z, false); ("tcp://10.0.0.5:9000", 120%Z, true)] ∧
  outcome w [] (discover_satellite_default "/opt") = Return (VStr "tcp://10.0.0.5:9000").
Proof. by vm_compute. Qed.

(** C9.  Take two worlds that answer alike, except that the log stream
    of the first may raise [RuntimeError] where that of the second returns
    [0].  Then [launch_satellite] has the same outcome in both and makes
    the same calls with the same answers, the stream's own answer apart:
    the exception is dropped.  And after a log stream that raised
    [RuntimeError], the next remote call is the lookup of the environment. *)
Theorem launch_runtime_error_as_exit_zero dir (raising returning : world) h :
  (∀ X h (c : rop X), swapped c (answer raising h c) (answer returning h c)) →
  (∀ X h (c : top X), reply raising h c = reply returning h c) →
  outcome raising h (launch_satellite dir) = outcome returning h (launch_satellite dir) ∧
  Forall2 swapped_event (trace raising h (launch_satellite dir))
    (trace returning h (launch_satellite dir)) ∧
  ∀ pre e post,
    trace raising h (launch_satellite dir) = pre ++ e :: post →
    stream_raised e = Some RuntimeError →
    ∃ e', List.find is_remote post = Some e' ∧ is_lookup e' = true.
Proof.
  intros HR HT.
  destruct (absorbs_run _ raising returning (launch_absorbs dir) HR HT h) as [Ho Ht].
  split; [done |]. split; [done |].
  intros pre e post Hsplit He.
  pose proof (wp_run _ _ (launch_wp_lookup_next dir) raising h) as Hall.
  exact (every_point_split _ _ _ Hall pre e post Hsplit _ He eq_refl).
Qed.

Lemma launch_runtime_error_as_exit_zero_witness :
  let raising := scripted stream_breaks in
  let returning := scripted (healthy (λ _ _, true)) in
  outcome raising [] (launch_satellite "/opt") = outcome returning [] (launch_satellite "/opt") ∧
  Forall2 swapped_event (trace raising [] (launch_satellite "/opt"))
    (trace returning [] (launch_satellite "/opt")) ∧
  ∀ pre e post,
    trace raising [] (launch_satellite "/opt") = pre ++ e :: post →
    stream_raised e = Some RuntimeError →
    ∃ e', List.find is_remote post = Some e' ∧ is_lookup e' = true.
Proof.
  intros raising returning.
  apply (launch_runtime_error_as_exit_zero "/opt" raising returning []).
  - intros X h c. destruct c; first [by left | by right].
  - intros X h c. by destruct c.
Defined.

Example launch_after_runtime_error :
  let t := trace (scripted stream_breaks) [] (launch_satellite "/opt") in
  stream_raised <$> t !! 19 = Some (Some RuntimeError) ∧
  omap probe_of t = [("tcp://10.0.0.5:9000", 120%Z, true)] ∧
  outcome (scripted stream_breaks) [] (launch_satellite "/opt") =
    Return (VStr "tcp://10.0.0.5:9000").
Proof. by vm_compute. Qed.

(** C10.  With [deploy] false, in every world: no destroy, create, push
    or deployment trigger is issued and no launch is started; a value that
    is returned is [None] or the endpoint whose probe, the last event,
    succeeded; no [RESTAPIError] or [KeyError] reaches the caller; and
    when the lookup raised [RESTAPIError], or its response lacks the host
    or the port, or the probe failed, the call returns [None]. *)
Theorem discover_without_deploy dir w h timeout :
  let t := trace w h (discover_satellite dir false timeout) in
  let o := outcome w h (discover_satellite dir false timeout) in
  Forall (λ e, is_mutating e = false ∧ is_launch_start e = false) t ∧
  (∀ v, o = Return v → v = VNone ∨ validated timeout t v) ∧
  (∀ x, o = Raise x → caught x = false) ∧
  (∀ pre e post, t = pre ++ e :: post → no_endpoint_at e → o = Return VNone).
Proof.
  intros t o.
  destruct (wp_run _ _ (discover_wp_without_deploy dir timeout) w h)
    as [Hmut Hret Hraise Hapi Hkey Hprobe].
  repeat split; [done | done | done |].
  intros pre e post Hsplit [(code & desc & He) | [(resp & He & Hresp) | (ep & tm & He)]].
  - exact (every_point_split _ _ _ Hapi pre e post Hsplit _ He code desc eq_refl).
  - exact (every_point_split _ _ _ Hkey pre e post Hsplit _ He Hresp).
  - exact (every_point_split _ _ _ Hprobe pre e post Hsplit _ He eq_refl).
Qed.

Lemma discover_without_deploy_witness :
  let w := scripted not_found in
  let t := trace w [] (discover_satellite "/opt" false 5) in
  let o := outcome w [] (discover_satellite "/opt" false 5) in
  Forall (λ e, is_mutating e = false ∧ is_launch_start e = false) t ∧
  (∀ v, o = Return v → v = VNone ∨ validated 5 t v) ∧
  (∀ x, o = Raise x → caught x = false) ∧
  (∀ pre e post, t = pre ++ e :: post → no_endpoint_at e → o = Return VNone).
Proof. exact (discover_without_deploy "/opt" (scripted not_found) [] 5). Defined.

Example discover_without_deploy_cases :
  outcome (scripted not_found) [] (discover_satellite "/opt" false 5) = Return VNone ∧
  outcome (scripted no_port) [] (discover_satellite "/opt" false 5) = Return VNone ∧
  outcome (scripted never_online) [] (discover_satellite "/opt" false 5) = Return VNone ∧
  outcome (scripted (healthy (λ _ _, true))) [] (discover_satellite "/opt" false 5) =
    Return (VStr "tcp://10.0.0.5:9000").
Proof. by vm_compute. Qed.

(** ** Further properties of the module *)

Lemma launch_wp_interrupt dir :
  wp (launch_satellite dir)
    (λ t o, every_point (at_each stream_interrupted (interrupt_reported o)) [] t).
Proof.
   wp_all; scan ltac:(unfold interrupt_reported;
                      split; [reflexivity |]; split; [by repeat constructor |];
                      split; [eexists; split; reflexivity |];
                      split; [reflexivity | eexists; split; reflexivity]).
Qed.

Lemma launch_wp_redirect dir :
  wp (launch_satellite dir)
    (λ t _, every_point (at_each buffer_made redirect_undone) [] t).
Proof. wp_all; scan ltac:(unfold redirect_undone; eexists; split; reflexivity). Qed.


Lemma launch_wp_destroy_error dir :
  wp (launch_satellite dir)
    (λ t o, every_point (at_each destroy_error (destroy_error_passes o)) [] t).
Proof.
   wp_all; scan ltac:(unfold destroy_error_passes;
                      first [by split | eexists _, _; split; reflexivity]).
Qed.

Lemma launch_wp_in_order dir : wp (launch_satellite dir) (λ t _, in_order t).
Proof. wp_all; reflexivity. Qed.


Lemma launch_wp_streamed dir :
  wp (launch_satellite dir)
    (λ t _, every_point (at_each stream_call streamed_as_triggered) [] t).
Proof.
   wp_all; scan ltac:(unfold streamed_as_triggered; cbn [fst snd];
                      split; [reflexivity |]; split; [reflexivity |];
                      eexists; split; [reflexivity |]; split; [eassumption | reflexivity]).
Qed.

Lemma launch_wp_deploy_id dir :
  wp (launch_satellite dir)
    (λ t o, every_point (at_each triggered (deploy_id_required o)) [] t).
Proof.
   wp_all; scan ltac:(unfold deploy_id_required; cbn [fst snd]; intros;
                      first [congruence | by split]).
Qed.

Lemma launch_wp_result dir : wp (launch_satellite dir) launch_result.
Proof. wp_all; first [exact I | reflexivity | by repeat split]. Qed.

Lemma launch_wp_composed dir :
  wp (launch_satellite dir)
    (λ t _, every_point (at_each probe_of endpoint_composed) [] t).
Proof.
   wp_all; scan ltac:(unfold endpoint_composed; eexists _, _, _, _, _, _, _;
                      repeat split; first [reflexivity | eassumption]).
Qed.

Lemma launch_wp_threads dir :
  wp (launch_satellite dir)
    (λ t _, every_point (at_each thread_started previous_stopped) [] t ∧
            last_thread_stopped t).
Proof.
   wp_all.
  all: split; [scan ltac:(reflexivity) |].
  all: split; [intros H; first [reflexivity | discriminate H]
              | intros H; first [reflexivity | by destruct H]].
Qed.

Lemma launch_wp_one dir : wp (launch_satellite dir) one_launch.
Proof.
  wp_all.
  all: split; [first [exact I | reflexivity | by repeat split] |].
  all: split; [reflexivity |].
  all: scan ltac:(unfold endpoint_composed; eexists _, _, _, _, _, _, _;
                  repeat split; first [reflexivity | eassumption]).
Qed.

Ltac own :=
  split;
  [ prelude
  | scan ltac:(unfold endpoint_composed; eexists _, _, _, _, _, _, _;
               repeat split; first [reflexivity | eassumption]) ].

Lemma discover_wp_shape dir deploy timeout (L : list event → result value → Prop) :
  wp (launch_satellite dir) L →
  wp (discover_satellite dir deploy timeout) (discover_shape deploy timeout L).
Proof.
  intros HL. unfold discover_satellite, lookup_endpoint. destruct deploy.
  all: repeat wp_step.
  all: repeat match goal with x : unit |- _ => destruct x end.
  all: try (apply wp_try_except; eapply wp_mono; [exact HL |];
            intros t1 [v | e] H1;
            [| destruct e; lazy beta iota;
               try (eapply wp_mono; [exact HL |]; intros t2 o2 H2)]).
  all: try (eapply wp_mono; [exact HL |]; intros t1 o1 H1).
  all: match goal with
       | H2 : ?L0 ?t2 _, H1 : ?L0 ?t1 (Raise ?e) |- discover_shape _ _ ?L0 ?t _ =>
           let pre := prefix_of t constr:(t1 ++ t2) in
           right; right; split; [reflexivity |];
           exists pre, t1, e, t2; eexists;
           split; [own |]; by repeat split
       | H1 : ?L0 ?t1 _ |- discover_shape _ _ ?L0 ?t _ =>
           let pre := prefix_of t t1 in
           right; left; split; [reflexivity |];
           exists pre, t1; split; [own |]; by split
       | |- discover_shape _ _ _ ?t _ =>
           left; split; [own | reflexivity]
       end.
Qed.

Lemma every_point_extend Φ extra before t :
  (∀ b e p, Φ b e p → Φ (b ++ extra) e p) →
  every_point Φ before t → every_point Φ (before ++ extra) t.
Proof.
  intros HΦ. revert before.
  induction t as [| a t IH]; intros before H; simpl in *; [done |].
  destruct H as [Ha H]. split; [by apply HΦ | by apply (IH (a :: before))].
Qed.

Lemma every_point_post Φ extra before t :
  (∀ b e p, Φ b e p → Φ b e (p ++ extra)) →
  every_point Φ before t → every_point (λ b e p, Φ b e (p ++ extra)) before t.
Proof.
  intros HΦ. revert before.
  induction t as [| a t IH]; intros before H; simpl in *; [done |].
  destruct H as [Ha H]. split; [by apply HΦ | by apply IH].
Qed.

Lemma endpoint_composed_extend x extra before post :
  endpoint_composed x before post → endpoint_composed x (before ++ extra) post.
Proof.
  intros (d1 & d2 & rest & resp & name & port & address & -> & H).
  by exists d1, d2, (rest ++ extra), resp, name, port, address.
Qed.

Lemma composed_app t1 t2 :
  every_point (at_each probe_of endpoint_composed) [] t1 →
  every_point (at_each probe_of endpoint_composed) [] t2 →
  every_point (at_each probe_of endpoint_composed) [] (t1 ++ t2).
Proof.
  intros H1 H2. apply every_point_app.
  - by apply (every_point_post (at_each probe_of endpoint_composed) t2).
  - apply (every_point_extend (at_each probe_of endpoint_composed) (rev t1 ++ []) []
             t2); [| done].
    intros b e p He x Hx. by apply endpoint_composed_extend, He.
Qed.

(** X1.  If the configuration is not loaded, [discover_satellite] asks
    nothing of the platform: whatever [deploy] and [timeout] are, it calls
    [die] with the message of line 106 and ends with [SystemExit]. *)
Theorem discover_not_configured dir w h deploy timeout :
  reply w h ConfigLoaded = false →
  trace w h (discover_satellite dir deploy timeout) =
    [EvT ConfigLoaded false;
     EvT (CliDie (Some "Please setup skypipe by running `skypipe --setup`")) ()] ∧
  outcome w h (discover_satellite dir deploy timeout) = Raise (SystemExit 1).
Proof.
  intros Hloaded. unfold trace, outcome, discover_satellite.
  run_red. rewrite Hloaded. run_red. by destruct (reply w _ (CliDie _)).
Qed.

Lemma discover_not_configured_witness :
  let w := scripted unconfigured in
  trace w [] (discover_satellite_default "/opt") =
    [EvT ConfigLoaded false;
     EvT (CliDie (Some "Please setup skypipe by running `skypipe --setup`")) ()] ∧
  outcome w [] (discover_satellite_default "/opt") = Raise (SystemExit 1).
Proof.
  apply (discover_not_configured "/opt" (scripted unconfigured) []
           default_deploy default_timeout).
  reflexivity.
Defined.

(** X2.  If the log stream is interrupted ([KeyboardInterrupt]), then
    [launch_satellite] reports it with the three messages of lines
    177-185, the second carrying the trace identifier of the stream call
    and the third the command made from its deploy identifier, calls [die]
    without a message, puts [sys.stdout] back and ends with [SystemExit];
    no remote call follows the interrupt, so nothing is destroyed. *)
Theorem launch_interrupt_is_reported dir w h pre e post deploy_id deploy_trace_id :
  trace w h (launch_satellite dir) = pre ++ e :: post →
  stream_interrupted e = Some (deploy_id, deploy_trace_id) →
  outcome w h (launch_satellite dir) = Raise (SystemExit 1) ∧
  Forall (λ e', is_remote e' = false) post ∧
  (∃ command,
     omap command_made post = [(deploy_id, command)] ∧
     omap error_message post =
       [interrupted_message; support_message deploy_trace_id;
        resume_message command]) ∧
  omap die_message post = [None] ∧
  ∃ d, last post = Some d ∧ is_restore_stdout d = true.
Proof.
  intros Ht He.
  pose proof (wp_run _ _ (launch_wp_interrupt dir) w h) as Hall.
  exact (every_point_split _ _ _ Hall pre e post Ht _ He).
Qed.

Lemma launch_interrupt_is_reported_witness :
  let w := scripted interrupted in
  let t := trace w [] (launch_satellite "/opt") in
  outcome w [] (launch_satellite "/opt") = Raise (SystemExit 1) ∧
  Forall (λ e', is_remote e' = false) (drop 20 t) ∧
  (∃ command,
     omap command_made (drop 20 t) = [("d1", command)] ∧
     omap error_message (drop 20 t) =
       [interrupted_message; support_message "trace-1"; resume_message command]) ∧
  omap die_message (drop 20 t) = [None] ∧
  ∃ d, last (drop 20 t) = Some d ∧ is_restore_stdout d = true.
Proof.
  intros w t.
  apply (launch_interrupt_is_reported "/opt" w [] (take 19 t)
           (EvR (StreamDeployLogs APPNAME "d1" "trace-1" true) (Raise KeyboardInterrupt))
           (drop 20 t) "d1" "trace-1").
  - vm_compute. reflexivity.
  - reflexivity.
Defined.

(** X3.  Whenever [launch_satellite] makes the buffer of line 171, it sets
    [sys.stdout] to the buffer and afterwards sets it back to the stream it
    last read from [sys.stdout] (line 166), and sets it to nothing else:
    however the log stream ends, by a code, by an exception that is
    handled or by one that is not, the [finally] clause has run. *)
Theorem launch_restores_stdout dir w h pre e post buffer :
  trace w h (launch_satellite dir) = pre ++ e :: post →
  buffer_made e = Some buffer →
  ∃ original,
    head (omap stdout_read (rev pre)) = Some original ∧
    omap stdout_set post = [buffer; original].
Proof.
  intros Ht He.
  pose proof (wp_run _ _ (launch_wp_redirect dir) w h) as Hall.
  destruct (every_point_split _ _ _ Hall pre e post Ht _ He) as (original & H1 & H2).
  rewrite app_nil_r in H1. by exists original.
Qed.

Lemma launch_restores_stdout_witness :
  let w := scripted interrupted in
  let t := trace w [] (launch_satellite "/opt") in
  ∃ original,
    head (omap stdout_read (rev (take 17 t))) = Some original ∧
    omap stdout_set (drop 18 t) = [2; original].
Proof.
  intros w t.
  apply (launch_restores_stdout "/opt" w [] (take 17 t) (EvT NewStringIO 2) (drop 18 t) 2).
  - vm_compute. reflexivity.
  - reflexivity.
Defined.



(** X5.  A destroy call that raises [RESTAPIError] does not stop
    [launch_satellite]: the create call comes next.  A destroy call that
    raises anything else ends it: that exception is the outcome and no
    create call, nor any other event, follows. *)
Theorem launch_destroy_error dir w h pre e post x :
  trace w h (launch_satellite dir) = pre ++ e :: post →
  destroy_error e = Some x →
  match x with
  | RESTAPIError _ _ => ∃ c rest, post = c :: rest ∧ is_create c = true
  | _ => outcome w h (launch_satellite dir) = Raise x ∧ post = []
  end.
Proof.
  intros Ht He.
  pose proof (wp_run _ _ (launch_wp_destroy_error dir) w h) as Hall.
  exact (every_point_split _ _ _ Hall pre e post Ht _ He).
Qed.

Lemma launch_destroy_error_witness :
  let w := scripted unreachable in
  let t := trace w [] (launch_satellite "/opt") in
  outcome w [] (launch_satellite "/opt") = Raise (OtherError "ConnectionError") ∧
  drop 6 t = [].
Proof.
  intros w t.
  apply (launch_destroy_error "/opt" w [] (take 5 t)
           (EvR (UserDelete "/applications/skypipe0") (Raise (OtherError "ConnectionError")))
           (drop 6 t) (OtherError "ConnectionError")).
  - vm_compute. reflexivity.
  - reflexivity.
Defined.

(** X6.  In every run of [launch_satellite] the remote calls and the
    probe come in one order: destroy, create, list the push endpoints,
    select one, push, trigger the deployment, follow the logs, look up the
    environment, resolve the host, probe.  Each is made at most once and
    none is made unless all before it were made. *)
Theorem launch_calls_in_order dir w h :
  omap step_of (trace w h (launch_satellite dir)) =
    seq 0 (length (omap step_of (trace w h (launch_satellite dir)))) ∧
  length (omap step_of (trace w h (launch_satellite dir))) ≤ 10.
Proof.
  pose proof (wp_run _ _ (launch_wp_in_order dir) w h) as Hall.
  split; [exact Hall |].
  assert (Forall (λ n, n < 10) (omap step_of (trace w h (launch_satellite dir)))) as Hlt.
  { apply Forall_forall. intros n Hn. apply list_elem_of_omap in Hn as (e & _ & He).
    destruct e as [X c r | X c x]; destruct c; simplify_eq/=;
      repeat case_bool_decide; lia. }
  rewrite Hall in Hlt.
  destruct (length (omap step_of (trace w h (launch_satellite dir)))) as [| n]; [lia |].
  rewrite Forall_forall in Hlt. specialize (Hlt n).
  assert (n < 10); [| lia]. apply Hlt. apply elem_of_seq. lia.
Qed.



(** X8.  The log stream that [launch_satellite] follows is that of the
    deployment it just triggered: the call names [APPNAME], asks to follow,
    and passes the [deploy_id] entry and the trace identifier of the
    response to the latest deployment trigger, whose body asked for no
    revision and no clean build. *)
Theorem launch_streams_triggered dir w h pre e post app deploy_id deploy_trace_id follow :
  trace w h (launch_satellite dir) = pre ++ e :: post →
  stream_call e = Some (app, deploy_id, deploy_trace_id, follow) →
  app = APPNAME ∧ follow = true ∧
  ∃ resp,
    head (omap triggered (rev pre)) =
      Some ([("revision", PNone); ("clean", PBool false)], resp) ∧
    item resp !! "deploy_id" = Some deploy_id ∧
    trace_id resp = deploy_trace_id.
Proof.
  intros Ht He.
  pose proof (wp_run _ _ (launch_wp_streamed dir) w h) as Hall.
  pose proof (every_point_split _ _ _ Hall pre e post Ht _ He) as H.
  by rewrite app_nil_r in H.
Qed.

Lemma launch_streams_triggered_witness :
  let w := scripted (healthy (λ _ _, true)) in
  let t := trace w [] (launch_satellite "/opt") in
  "skypipe0" = APPNAME ∧ true = true ∧
  ∃ resp,
    head (omap triggered (rev (take 19 t))) =
      Some ([("revision", PNone); ("clean", PBool false)], resp) ∧
    item resp !! "deploy_id" = Some "d1" ∧
    trace_id resp = "trace-1".
Proof.
  intros w t.
  apply (launch_streams_triggered "/opt" w [] (take 19 t)
           (EvR (StreamDeployLogs "skypipe0" "d1" "trace-1" true) (Return 0%Z))
           (drop 20 t)).
  - vm_compute. reflexivity.
  - reflexivity.
Defined.

(** X9.  If the response to the deployment trigger has no [deploy_id]
    entry, [launch_satellite] raises [KeyError] for that key right after
    the trigger: the logs are not followed and no probe is made, though
    the deployment was triggered. *)
Theorem launch_needs_deploy_id dir w h pre e post body resp :
  trace w h (launch_satellite dir) = pre ++ e :: post →
  triggered e = Some (body, resp) →
  item resp !! "deploy_id" = None →
  outcome w h (launch_satellite dir) = Raise (KeyError "deploy_id") ∧ post = [].
Proof.
  intros Ht He Hid.
  pose proof (wp_run _ _ (launch_wp_deploy_id dir) w h) as Hall.
  exact (every_point_split _ _ _ Hall pre e post Ht _ He Hid).
Qed.

Lemma launch_needs_deploy_id_witness :
  let w := scripted no_deploy_id in
  let t := trace w [] (launch_satellite "/opt") in
  outcome w [] (launch_satellite "/opt") = Raise (KeyError "deploy_id") ∧ drop 11 t = [].
Proof.
  intros w t.
  apply (launch_needs_deploy_id "/opt" w [] (take 10 t)
           (EvR (UserPost deployments_url [("revision", PNone); ("clean", PBool false)])
              (Return plain_response))
           (drop 11 t) [("revision", PNone); ("clean", PBool false)] plain_response).
  - vm_compute. reflexivity.
  - reflexivity.
  - reflexivity.
Defined.

(** X10.  What [launch_satellite] returns, in every world: never [None];
    a string only when its one probe, made with the timeout 120, succeeded
    for that very string; an integer only when it is the nonzero exit code
    of the log stream, and then no probe was made. *)
Theorem launch_return_values dir w h :
  match outcome w h (launch_satellite dir) with
  | Return VNone => False
  | Return (VStr endpoint) =>
      omap probe_of (trace w h (launch_satellite dir)) = [(endpoint, 120%Z, true)]
  | Return (VInt z) =>
      z ≠ 0%Z ∧
      omap stream_exit (trace w h (launch_satellite dir)) = [z] ∧
      omap probe_of (trace w h (launch_satellite dir)) = []
  | Raise _ => True
  end.
Proof. exact (wp_run _ _ (launch_wp_result dir) w h). Qed.

(** X11.  The progress threads of [launch_satellite] do not overlap: when
    one is started, the event of the one started before has been set since,
    and no other.  At the end of a run the event of the last thread has
    been set if the run came to the probe (lines 198-204), and has not
    been set on any other exit: there the thread is left printing dots. *)
Theorem launch_progress_threads dir w h :
  (∀ pre e post x,
     trace w h (launch_satellite dir) = pre ++ e :: post →
     thread_started e = Some x →
     set_since_start (rev pre) =
       match omap thread_started (rev pre) with
       | [] => []
       | (finish, _) :: _ => [finish]
       end) ∧
  match omap thread_started (rev (trace w h (launch_satellite dir))) with
  | [] => True
  | (finish, _) :: _ =>
      (omap probe_of (trace w h (launch_satellite dir)) = [] →
       set_since_start (rev (trace w h (launch_satellite dir))) = []) ∧
      (omap probe_of (trace w h (launch_satellite dir)) ≠ [] →
       set_since_start (rev (trace w h (launch_satellite dir))) = [finish])
  end.
Proof.
  destruct (wp_run _ _ (launch_wp_threads dir) w h) as [Hall Hlast].
  split; [| exact Hlast].
  intros pre e post x Ht He.
  pose proof (every_point_split _ _ _ Hall pre e post Ht _ He) as H.
  by rewrite app_nil_r in H.
Qed.

Example launch_leaves_thread_running :
  let t := trace (scripted still_there) [] (launch_satellite "/opt") in
  omap thread_started t = [(2, 1)] ∧ omap event_set t = [].
Proof. by vm_compute. Qed.

Lemma count_own timeout pre :
  own_part timeout pre → count is_launch_start pre = 0.
Proof. intros [H _]. by eapply count_prelude. Qed.

(** X12.  What [discover_satellite] returns or raises, in every world.
    It returns [None] only with [deploy] false.  A string it returns is
    the endpoint of the last probe of the run, and that probe succeeded.
    An integer it returns, with [deploy] true only, is the nonzero exit
    code of the last log stream.  And if it raises [RESTAPIError] or
    [KeyError], then [deploy] is true and a launch was started: the
    exception comes out of a launch, never out of the lookup of line 109. *)
Theorem discover_return_values dir w h deploy timeout :
  match outcome w h (discover_satellite dir deploy timeout) with
  | Return VNone => deploy = false
  | Return (VStr endpoint) =>
      ∃ timeout',
        last (omap probe_of (trace w h (discover_satellite dir deploy timeout))) =
          Some (endpoint, timeout', true)
  | Return (VInt z) =>
      deploy = true ∧ z ≠ 0%Z ∧
      last (omap stream_exit (trace w h (discover_satellite dir deploy timeout))) = Some z
  | Raise e =>
      caught e = true →
      deploy = true ∧
      0 < count is_launch_start (trace w h (discover_satellite dir deploy timeout))
  end.
Proof.
  pose proof (wp_run _ _ (discover_wp_shape dir deploy timeout _ (launch_wp_one dir)) w h)
    as Hshape.
  destruct Hshape as [[Hown Ho]
    | [(-> & pre & t1 & Hown & (H1 & Hc1 & _) & ->)
      | (-> & pre & t1 & e & t2 & ep & Hown & _ & (_ & Hc1 & _) & _ & (H2 & Hc2 & _) & ->)]].
  - destruct (outcome w h _) as [[| s | z] | e]; simpl in *; try done.
    + rewrite Ho. by eexists.
    + intros He. congruence.
  - destruct (outcome w h _) as [[| s | z] | e]; simpl in *; try done.
    + exists 120%Z. by rewrite omap_app, H1, last_snoc.
    + destruct H1 as (Hz & Hs & _). by rewrite omap_app, Hs, last_snoc.
    + intros _. split; [done |]. rewrite count_app. lia.
  - destruct (outcome w h _) as [[| s | z] | e']; simpl in *; try done.
    + exists 120%Z. by rewrite !omap_app, H2, !app_assoc, last_snoc.
    + destruct H2 as (Hz & Hs & _). by rewrite !omap_app, Hs, !app_assoc, last_snoc.
    + intros _. split; [done |]. rewrite !count_app. lia.
Qed.

(** X13.  When [discover_satellite] launches twice.  At most two launches
    start in a run, and none with [deploy] false.  Two start only with
    [deploy] true and only after the run's first probe, made with the
    timeout passed in, failed: when the lookup itself fails, at most one
    launch follows. *)
Theorem discover_second_launch dir w h deploy timeout :
  let t := trace w h (discover_satellite dir deploy timeout) in
  count is_launch_start t ≤ 2 ∧
  (deploy = false → count is_launch_start t = 0) ∧
  (count is_launch_start t = 2 →
   deploy = true ∧ ∃ endpoint, head (omap probe_of t) = Some (endpoint, timeout, false)).
Proof.
  intros t. subst t.
  pose proof (wp_run _ _ (discover_wp_shape dir deploy timeout _ (launch_wp_one dir)) w h)
    as Hshape.
  destruct Hshape as [[Hown Ho]
    | [(-> & pre & t1 & Hown & (_ & Hc1 & _) & ->)
      | (-> & pre & t1 & e & t2 & ep & Hown & Hp & (_ & Hc1 & _) & _ & (_ & Hc2 & _) & ->)]].
  - apply count_own in Hown. rewrite Hown. repeat split; [lia | lia |]. lia.
  - apply count_own in Hown. rewrite count_app, Hown, Hc1.
    repeat split; [lia | done | lia].
  - apply count_own in Hown. rewrite !count_app, Hown, Hc1, Hc2.
    repeat split; [lia | done |]. exists ep. by rewrite omap_app, Hp.
Qed.

Lemma discover_second_launch_witness :
  let t := trace (scripted push_endpoints_down) [] (discover_satellite_default "/opt") in
  true = true ∧ ∃ endpoint, head (omap probe_of t) = Some (endpoint, default_timeout, false).
Proof.
  intros t.
  apply (discover_second_launch "/opt" (scripted push_endpoints_down) []
           default_deploy default_timeout).
  by vm_compute.
Defined.

(** X14.  Every endpoint that is probed, in every run of
    [launch_satellite] and of [discover_satellite], is freshly made: the
    two events before the probe are a lookup of the environment that
    returned and the resolution of its host entry, and the endpoint is
    tcp:// followed by the resolved address, a colon and the port entry. *)
Theorem probed_endpoint_is_fresh dir w h :
  (∀ pre e post x,
     trace w h (launch_satellite dir) = pre ++ e :: post →
     probe_of e = Some x →
     ∃ pre' d2 d1 resp name port address,
       pre = pre' ++ [d2; d1] ∧
       lookup_answer d2 = Some resp ∧
       resolution d1 = Some (name, address) ∧
       item resp !! "DOTCLOUD_SATELLITE_ZMQ_HOST" = Some name ∧
       item resp !! "DOTCLOUD_SATELLITE_ZMQ_PORT" = Some port ∧
       x.1.1 = "tcp://" +:+ address +:+ ":" +:+ port) ∧
  (∀ deploy timeout pre e post x,
     trace w h (discover_satellite dir deploy timeout) = pre ++ e :: post →
     probe_of e = Some x →
     ∃ pre' d2 d1 resp name port address,
       pre = pre' ++ [d2; d1] ∧
       lookup_answer d2 = Some resp ∧
       resolution d1 = Some (name, address) ∧
       item resp !! "DOTCLOUD_SATELLITE_ZMQ_HOST" = Some name ∧
       item resp !! "DOTCLOUD_SATELLITE_ZMQ_PORT" = Some port ∧
       x.1.1 = "tcp://" +:+ address +:+ ":" +:+ port).
Proof.
  assert (∀ t pre e post x,
            every_point (at_each probe_of endpoint_composed) [] t →
            t = pre ++ e :: post → probe_of e = Some x →
            ∃ pre' d2 d1 resp name port address,
              pre = pre' ++ [d2; d1] ∧
              lookup_answer d2 = Some resp ∧
              resolution d1 = Some (name, address) ∧
              item resp !! "DOTCLOUD_SATELLITE_ZMQ_HOST" = Some name ∧
              item resp !! "DOTCLOUD_SATELLITE_ZMQ_PORT" = Some port ∧
              x.1.1 = "tcp://" +:+ address +:+ ":" +:+ port) as Hsplit.
  { intros t pre e post x Hall Ht He.
    destruct (every_point_split _ _ _ Hall pre e post Ht _ He)
      as (d1 & d2 & rest & resp & name & port & address & Hpre & H1 & H2 & H3 & H4 & H5).
    exists (rev rest), d2, d1, resp, name, port, address. repeat split; try done.
    rewrite app_nil_r in Hpre. rewrite <- (rev_involutive pre), Hpre. simpl.
    by rewrite <- !app_assoc. }
  split.
  - intros pre e post x. apply Hsplit.
    apply (wp_run _ _ (launch_wp_composed dir) w h).
  - intros deploy timeout pre e post x. apply Hsplit.
    pose proof (wp_run _ _ (discover_wp_shape dir deploy timeout _ (launch_wp_one dir)) w h)
      as Hshape.
    destruct Hshape as [[[_ Hown] _]
      | [(_ & p0 & t1 & [_ Hown] & (_ & _ & H1) & ->)
        | (_ & p0 & t1 & e0 & t2 & ep & [_ Hown] & _ & (_ & _ & H1) & _ & (_ & _ & H2) & ->)]].
    + done.
    + by apply composed_app.
    + by repeat apply composed_app.
Qed.

Lemma probed_endpoint_is_fresh_witness :
  let w := scripted warming_up in
  let t := trace w [] (discover_satellite_default "/opt") in
  ∃ pre' d2 d1 resp name port address,
    take 33 t = pre' ++ [d2; d1] ∧
    lookup_answer d2 = Some resp ∧
    resolution d1 = Some (name, address) ∧
    item resp !! "DOTCLOUD_SATELLITE_ZMQ_HOST" = Some name ∧
    item resp !! "DOTCLOUD_SATELLITE_ZMQ_PORT" = Some port ∧
    "tcp://10.0.0.5:9000" = "tcp://" +:+ address +:+ ":" +:+ port.
Proof.
  intros w t.
  apply (proj2 (probed_endpoint_is_fresh "/opt" w []) default_deploy default_timeout
           (take 33 t)
           (EvT (CheckSkypipeEndpoint "tcp://10.0.0.5:9000" 120) true)
           (drop 34 t) ("tcp://10.0.0.5:9000", 120%Z, true)).
  - vm_compute. reflexivity.
  - reflexivity.
Defined.

Lemma wp_and {A} (p : prog A) (Q1 Q2 : list event → result A → Prop) :
  wp p Q1 → wp p Q2 → wp p (λ t o, Q1 t o ∧ Q2 t o).
Proof.
  revert Q1 Q2. induction p as [r | X c k IH | X c k IH]; intros Q1 Q2 H1 H2; simpl in *.
  - done.
  - intros r. apply (IH r _ _ (H1 r) (H2 r)).
  - intros x. apply (IH x _ _ (H1 x) (H2 x)).
Qed.

Lemma every_point_started (sel : event → option unit) before t :
  Exists (λ e, is_launch_start e = true) before →
  every_point (at_each sel mutation_in_launch) before t.
Proof.
  revert before. induction t as [| a t IH]; intros before Hb; simpl; [done |].
  split; [by intros x _ | apply IH; by right].
Qed.

Lemma every_point_prelude timeout extra before t :
  Forall (λ e, is_prelude timeout e = true) t →
  every_point (λ b e p, at_each (when is_mutating) mutation_in_launch b e (p ++ extra))
    before t.
Proof.
  revert before. induction t as [| a t IH]; intros before Ht; simpl; [done |].
  inversion_clear Ht as [| ? ? Ha Ht']. split; [| by apply IH].
  intros x Hx. unfold when in Hx.
  destruct a as [X c r | X c y]; destruct c; simplify_eq/=.
Qed.

Lemma mutation_after_start timeout pre t1 extra :
  Forall (λ e, is_prelude timeout e = true) pre →
  starts_with_launch t1 →
  every_point (at_each (when is_mutating) mutation_in_launch) [] (pre ++ t1 ++ extra).
Proof.
  intros Hpre (s & rest & -> & Hs). apply every_point_app.
  - by apply (every_point_prelude timeout).
  - simpl. split.
    + intros x Hx. unfold when in Hx.
      destruct s as [X c r | X c y]; destruct c; simplify_eq/=.
    + apply every_point_started. by left.
Qed.

(** X15.  [discover_satellite] changes nothing on the platform by itself:
    in every run, a destroy, create, push or deployment trigger is made
    only with [deploy] true and only after a launch has started. *)
Theorem discover_mutates_only_in_launch dir w h deploy timeout pre e post :
  trace w h (discover_satellite dir deploy timeout) = pre ++ e :: post →
  is_mutating e = true →
  deploy = true ∧ Exists (λ e', is_launch_start e' = true) pre.
Proof.
  intros Ht He.
  pose proof (wp_run _ _ (discover_wp_shape dir deploy timeout _ (launch_wp_probes dir)) w h)
    as Hshape.
  assert (when is_mutating e = Some ()) as Hsel by (unfold when; by rewrite He).
  assert (∀ t, t = pre ++ e :: post →
            every_point (at_each (when is_mutating) mutation_in_launch) [] t →
            Exists (λ e', is_launch_start e' = true) pre) as Hsplit.
  { intros t Heq Hall.
    pose proof (every_point_split _ _ _ Hall pre e post Heq _ Hsel) as Hex.
    rewrite app_nil_r in Hex. apply Exists_exists in Hex as (e' & Hin & He').
    apply Exists_exists. exists e'. split; [| done].
    apply list_elem_of_In, in_rev. by apply list_elem_of_In. }
  destruct Hshape as [[[Hown _] _]
    | [(-> & p0 & t1 & [Hown _] & [Hs1 _] & Heq)
      | (-> & p0 & t1 & e0 & t2 & ep & [Hown _] & _ & [Hs1 _] & _ & _ & Heq)]].
  - exfalso. rewrite Ht in Hown. apply Forall_app in Hown as [_ Hown].
    inversion_clear Hown as [| ? ? Hp _].
    destruct e as [X c r | X c y]; destruct c; simplify_eq/=.
  - split; [done |]. apply (Hsplit _ Ht). rewrite Heq.
    rewrite <- (app_nil_r t1). by apply (mutation_after_start timeout).
  - split; [done |]. apply (Hsplit _ Ht). rewrite Heq.
    by apply (mutation_after_start timeout).
Qed.

Lemma discover_mutates_only_in_launch_witness :
  let t := trace (scripted warming_up) [] (discover_satellite_default "/opt") in
  true = true ∧ Exists (λ e', is_launch_start e' = true) (take 9 t).
Proof.
  intros t.
  apply (discover_mutates_only_in_launch "/opt" (scripted warming_up) []
           default_deploy default_timeout (take 9 t)
           (EvR (UserDelete "/applications/skypipe0") (Return plain_response))
           (drop 10 t)).
  - vm_compute. reflexivity.
  - reflexivity.
Defined.

(** X16.  A failure to resolve the host is not taken for a missing
    satellite: if the environment has both keys and the resolver raises an
    exception other than [RESTAPIError] and [KeyError], [discover_satellite]
    raises that exception after three calls and starts no launch, even
    with [deploy] true. *)
Theorem discover_resolution_failure dir w h deploy timeout resp name port x :
  reply w h ConfigLoaded = true →
  answer w (AskT ConfigLoaded :: h) (UserGet environment_url) = Return resp →
  item resp !! "DOTCLOUD_SATELLITE_ZMQ_HOST" = Some name →
  item resp !! "DOTCLOUD_SATELLITE_ZMQ_PORT" = Some port →
  answer w (AskR (UserGet environment_url) :: AskT ConfigLoaded :: h)
    (GetHostByName name) = Raise x →
  caught x = false →
  outcome w h (discover_satellite dir deploy timeout) = Raise x ∧
  trace w h (discover_satellite dir deploy timeout) =
    [EvT ConfigLoaded true; EvR (UserGet environment_url) (Return resp);
     EvR (GetHostByName name) (Raise x)].
Proof.
  intros Hloaded Hget Hhost Hport Hresolve Hx.
  unfold outcome, trace, discover_satellite, lookup_endpoint.
  run_red. rewrite Hloaded. run_red. rewrite Hget. run_red.
  unfold getitem. rewrite Hport. run_red. rewrite Hhost. run_red.
  rewrite Hresolve. run_red. by destruct x.
Qed.

Lemma discover_resolution_failure_witness :
  let w := scripted unresolved in
  outcome w [] (discover_satellite_default "/opt") = Raise (OtherError "socket.gaierror") ∧
  trace w [] (discover_satellite_default "/opt") =
    [EvT ConfigLoaded true;
     EvR (UserGet environment_url) (Return (env_response "satellite.example" "9000"));
     EvR (GetHostByName "satellite.example") (Raise (OtherError "socket.gaierror"))].
Proof.
  apply (discover_resolution_failure "/opt" (scripted unresolved) []
           default_deploy default_timeout (env_response "satellite.example" "9000")
           "satellite.example" "9000"); reflexivity.
Defined.
